(** * Energy-sector stock ranking and price enrichment

    A shallow embedding of the two ranking scripts
    ([energy_stock_price_analysis.py], [finance_data_transform.py]) and of the
    per-ticker enrichment loop of the first one, with the properties the
    specification states about them.

    Conventions of the embedding.
    - A table cell is [option string]: [None] is pandas' NaN.
    - The universe table has the five descriptive columns the scripts read;
      a column may be absent from the table as a whole ([Columns]).
    - Floating-point numbers are idealised as rationals ([Q]); NaN and
      infinities of float arithmetic are outside the model.
    - A pandas [Series] over the rows of a frame is a function of the row;
      [rank] is the one operation that looks at the whole column. *)

From Stdlib Require Import List String Ascii ZArith QArith Permutation Sorted.
From Stdlib Require Import Lia Lqa Bool Arith.
Import ListNotations.
Local Open Scope string_scope.

(** ** Data model *)

Definition Cell := option string.

Record Row := mkRow {
  symbol : string;        (* the index label: the ticker *)
  name : Cell;
  currency : Cell;
  exchange : Cell;
  market_cap : Cell;
  country : Cell
}.

Record Columns := mkColumns {
  has_name : bool;
  has_currency : bool;
  has_exchange : bool;
  has_market_cap : bool;
  has_country : bool
}.

Record DataFrame := mkDataFrame {
  columns : Columns;
  records : list Row
}.

(** A row of the working frame [results] once the [rank_score] column is set. *)
Record Scored := mkScored {
  base : Row;
  rank_score : Q
}.

(** The frame returned by the ranker: the selected columns that exist, and
    the rows (index label, cells and score) in their final order. *)
Record Ranking := mkRanking {
  out_columns : list string;
  out_rows : list Scored
}.

Definition index (top : Ranking) : list string :=
  map (fun s => symbol (base s)) (out_rows top).

(** ** Python built-ins *)

Module Py.

Definition upper_ascii (c : ascii) : ascii :=
  let n := nat_of_ascii c in
  if (97 <=? n)%nat && (n <=? 122)%nat then ascii_of_nat (n - 32) else c.

(** [s.upper()], on ASCII text. *)
Fixpoint upper (s : string) : string :=
  match s with
  | EmptyString => EmptyString
  | String c s' => String (upper_ascii c) (upper s')
  end.

(** [sub in s] on strings. *)
Fixpoint contains (sub s : string) : bool :=
  if prefix sub s then true
  else match s with
       | EmptyString => false
       | String _ s' => contains sub s'
       end.

(** [str(x)] of a cell: NaN prints as [nan]. *)
Definition str (x : Cell) : string :=
  match x with
  | Some s => s
  | None => "nan"
  end.

Definition any {A} (p : A -> bool) (l : list A) : bool := existsb p l.

(** [x == s] and [x in l] for a cell against string literals: NaN equals none. *)
Definition eq_str (x : Cell) (s : string) : bool :=
  match x with
  | Some c => String.eqb c s
  | None => false
  end.

Definition in_list (x : Cell) (l : list string) : bool :=
  existsb (eq_str x) l.

(** [d.get(k)] on a dict given as its items. *)
Fixpoint dict_get {V} (d : list (string * V)) (k : string) : option V :=
  match d with
  | [] => None
  | (k', v) :: d' => if String.eqb k' k then Some v else dict_get d' k
  end.

End Py.

(** ** pandas operations *)

Module Pd.

Definition notna (c : Cell) : bool :=
  match c with
  | Some _ => true
  | None => false
  end.

(** [Series.isin(values)]: NaN is in no list of strings. *)
Definition isin (values : list string) (c : Cell) : bool := Py.in_list c values.

(** [Series.map(dict)] on one cell: a key the dict lacks (or NaN) maps to NaN. *)
Definition map_dict (d : list (string * Z)) (c : Cell) : option Z :=
  match c with
  | Some k => Py.dict_get d k
  | None => None
  end.

Definition fillna (v : Z) (x : option Z) : Z :=
  match x with
  | Some z => z
  | None => v
  end.

Fixpoint insert_by {A} (leb : A -> A -> bool) (x : A) (l : list A) : list A :=
  match l with
  | [] => [x]
  | y :: l' => if leb x y then x :: l else y :: insert_by leb x l'
  end.

Definition sort_by {A} (leb : A -> A -> bool) (l : list A) : list A :=
  fold_right (insert_by leb) [] l.

(** The 1-based places, counted from [i], at which [v] stands in [s]. *)
Fixpoint positions_of (v : Z) (i : nat) (s : list Z) : list nat :=
  match s with
  | [] => []
  | x :: s' =>
      if Z.eqb x v then i :: positions_of v (S i) s'
      else positions_of v (S i) s'
  end.

Definition mean (l : list nat) : Q :=
  inject_Z (Z.of_nat (list_sum l)) / inject_Z (Z.of_nat (List.length l)).

(** [Series.rank()] with the default [method='average']: the values are put
    in ascending order, numbered from 1, and a value gets the mean of the
    numbers of its group of equal values. *)
Definition rank_average (vs : list Z) (v : Z) : Q :=
  mean (positions_of v 1 (sort_by Z.leb vs)).

(** [Series.rank(pct=True)]: the average rank over the number of values. *)
Definition rank_pct (vs : list Z) (v : Z) : Q :=
  rank_average vs v / inject_Z (Z.of_nat (List.length vs)).

(** [DataFrame.head(n)], that is [iloc[:n]]: a negative [n] leaves out the
    last [-n] rows. *)
Definition head {A} (n : Z) (l : list A) : list A :=
  if (0 <=? n)%Z then firstn (Z.to_nat n) l
  else firstn (List.length l - Z.to_nat (- n)) l.

Definition score_ge (a b : Scored) : Prop := (rank_score b <= rank_score a)%Q.

(** [DataFrame.sort_values('rank_score', ascending=False)].  The scripts
    leave [kind] at its default, ['quicksort'], which pandas documents as not
    stable (only ['mergesort'] and ['stable'] are): the call returns the rows
    reordered so that the key is non-increasing, and promises nothing about
    the order of rows with equal keys, which NumPy's quicksort settles
    differently by array size and processor.  The interface states exactly
    that contract; the scores it sorts are never NaN. *)
Class SortValues := {
  sort_values_desc : list Scored -> list Scored;
  sort_values_perm : forall l, Permutation l (sort_values_desc l);
  sort_values_sorted : forall l, StronglySorted score_ge (sort_values_desc l)
}.

End Pd.

(** ** The ranker of [energy_stock_price_analysis.py] *)

Module PriceAnalysis.

Definition default_top_n : Z := 15.
Definition default_preferred_currencies : list string := ["USD"; "EUR"; "GBP"].

Definition cap_scores : list (string * Z) :=
  [("Micro Cap", 1); ("Small Cap", 2); ("Mid Cap", 3); ("Large Cap", 4);
   ("Mega Cap", 5)]%Z.

Definition major_exchanges : list string :=
  ["NASDAQ"; "NYSE"; "XETRA"; "NYQ"; "XETR"; "LON"; "Euronext"].

Definition select_cols : list string :=
  ["name"; "currency"; "exchange"; "market_cap"; "country"; "rank_score"].

(** [results['market_cap'].map(cap_scores).fillna(0)], per row. *)
Definition market_cap_score (r : Row) : Z :=
  Pd.fillna 0 (Pd.map_dict cap_scores (market_cap r)).

(** Lines 27-37: the two filters, each skipped when its column is absent. *)
Definition filter_rows (df : DataFrame) (preferred_currencies : list string)
  : list Row :=
  let results := records df in
  let results :=
    if has_market_cap (columns df)
    then filter (fun r => Pd.notna (market_cap r)) results
    else results in
  let results :=
    if has_currency (columns df)
    then filter (fun r => Pd.isin preferred_currencies (currency r)) results
    else results in
  results.

(** [results['market_cap_score'].rank(pct=True) * 50], per row of [results]. *)
Definition cap_component (results : list Row) (r : Row) : Q :=
  Pd.rank_pct (map market_cap_score results) (market_cap_score r) * 50.

(** [lambda x: 30 if x == 'USD' else (20 if x in ['EUR', 'GBP'] else 0)] *)
Definition currency_bonus (x : Cell) : Z :=
  (if Py.eq_str x "USD" then 30
   else if Py.in_list x ["EUR"; "GBP"] then 20
   else 0)%Z.

(** [lambda x: 20 if any(ex in str(x).upper() for ex in major_exchanges) else 0] *)
Definition exchange_bonus (x : Cell) : Z :=
  (if Py.any (fun ex => Py.contains ex (Py.upper (Py.str x))) major_exchanges
   then 20
   else 0)%Z.

(** Lines 41-57: the [rank_score] column, per row of the filtered frame.
    The [market_cap_score] column exists exactly when [market_cap] does. *)
Definition score (cols : Columns) (results : list Row) (r : Row) : Q :=
  let rank_score := 0 in
  let rank_score :=
    if has_market_cap cols then rank_score + cap_component results r
    else rank_score in
  let rank_score :=
    if has_currency cols
    then rank_score + inject_Z (currency_bonus (currency r))
    else rank_score in
  let rank_score :=
    if has_exchange cols
    then rank_score + inject_Z (exchange_bonus (exchange r))
    else rank_score in
  rank_score.

(** [col in results.columns] for the names of [select_cols]. *)
Definition in_columns (cols : Columns) (col : string) : bool :=
  if String.eqb col "name" then has_name cols
  else if String.eqb col "currency" then has_currency cols
  else if String.eqb col "exchange" then has_exchange cols
  else if String.eqb col "market_cap" then has_market_cap cols
  else if String.eqb col "country" then has_country cols
  else String.eqb col "rank_score".

Definition get_top_energy_stocks `{Pd.SortValues} (df : DataFrame)
    (top_n : Z) (preferred_currencies : list string) : Ranking :=
  let results := filter_rows df preferred_currencies in
  let results :=
    map (fun r => mkScored r (score (columns df) results r)) results in
  let results := Pd.sort_values_desc results in
  let available_select_cols := filter (in_columns (columns df)) select_cols in
  let top_results := mkRanking available_select_cols (Pd.head top_n results) in
  top_results.

End PriceAnalysis.

(** ** The ranker of [finance_data_transform.py]

    The same steps, with a progress line printed after each; the printed
    lines are returned beside the result. *)

Module Transform.

Inductive Printed :=
| Step1 (n : nat)
| Step2 (n : nat)
| Step3 (n : nat) (currencies : list string)
| Step5_6 (n : nat).

Definition get_top_energy_stocks `{Pd.SortValues} (df : DataFrame)
    (top_n : Z) (preferred_currencies : list string)
  : Ranking * list Printed :=
  let cols := columns df in
  let results := records df in
  let out := [Step1 (List.length results)] in
  let cap_scores :=
    [("Micro Cap", 1); ("Small Cap", 2); ("Mid Cap", 3); ("Large Cap", 4);
     ("Mega Cap", 5)]%Z in
  let '(results, out) :=
    if has_market_cap cols
    then
      let results := filter (fun r => Pd.notna (market_cap r)) results in
      (results, (out ++ [Step2 (List.length results)])%list)
    else (results, out) in
  let market_cap_score :=
    fun r => Pd.fillna 0 (Pd.map_dict cap_scores (market_cap r)) in
  let '(results, out) :=
    if has_currency cols
    then
      let results :=
        filter (fun r => Pd.isin preferred_currencies (currency r)) results in
      (results, (out ++ [Step3 (List.length results) preferred_currencies])%list)
    else (results, out) in
  let rank_score := fun _ : Row => 0 in
  let rank_score :=
    if has_market_cap cols
    then fun r =>
           rank_score r
           + Pd.rank_pct (map market_cap_score results) (market_cap_score r)
             * 50
    else rank_score in
  let rank_score :=
    if has_currency cols
    then
      let currency_bonus := fun x : Cell =>
        (if Py.eq_str x "USD" then 30
         else if Py.in_list x ["EUR"; "GBP"] then 20 else 0)%Z in
      fun r => rank_score r + inject_Z (currency_bonus (currency r))
    else rank_score in
  let major_exchanges :=
    ["NASDAQ"; "NYSE"; "XETRA"; "NYQ"; "XETR"; "LON"; "Euronext"] in
  let rank_score :=
    if has_exchange cols
    then
      let exchange_bonus := fun x : Cell =>
        (if Py.any (fun ex => Py.contains ex (Py.upper (Py.str x)))
              major_exchanges
         then 20 else 0)%Z in
      fun r => rank_score r + inject_Z (exchange_bonus (exchange r))
    else rank_score in
  let results :=
    Pd.sort_values_desc (map (fun r => mkScored r (rank_score r)) results) in
  let select_cols :=
    ["name"; "currency"; "exchange"; "market_cap"; "country"; "rank_score"] in
  let available_select_cols :=
    filter (PriceAnalysis.in_columns cols) select_cols in
  let top_results := mkRanking available_select_cols (Pd.head top_n results) in
  (top_results,
   (out ++ [Step5_6 (List.length (out_rows top_results))])%list).

End Transform.

(** ** The enrichment loop of [energy_stock_price_analysis.py] (lines 78-143) *)

(** A computation that returns a value or raises an exception (its message). *)
Inductive Result (A : Type) : Type :=
| Return (a : A)
| Raise (e : string).

Arguments Return {A} a.
Arguments Raise {A} e.

Definition bind {A B} (m : Result A) (k : A -> Result B) : Result B :=
  match m with
  | Return a => k a
  | Raise e => Raise e
  end.

Notation "x <- m ;; k" := (bind m (fun x => k))
  (at level 61, m at next level, right associativity).

(** [try: body except Exception as e: handler(e)] *)
Definition try_except {A} (body : Result A) (handler : string -> Result A)
  : Result A :=
  match body with
  | Return a => Return a
  | Raise e => handler e
  end.

(** The market-data provider, as the loop uses it. *)
Module Yf.

Record Bar := mkBar { Close : Q; Volume : Q }.

(** The table [yf.download] returns: one bar per trading day, oldest first. *)
Definition History := list Bar.

(** A value of the [info] mapping: a number, a string, or Python's [None]. *)
Inductive InfoValue :=
| Num (q : Q)
| Str (s : string)
| NoneValue.

Definition Info := list (string * InfoValue).

(** Either request may raise. *)
Class Provider := {
  download : string -> Result History;
  ticker_info : string -> Result Info
}.

End Yf.

Module Enricher.

Import Yf.

Definition empty (h : History) : bool :=
  match h with
  | [] => true
  | _ :: _ => false
  end.

(** [s.iloc[0]] and [s.iloc[-1]]: IndexError on an empty series. *)
Definition iloc_first (s : list Q) : Result Q :=
  match s with
  | [] => Raise "IndexError"
  | x :: _ => Return x
  end.

Definition iloc_last (s : list Q) : Result Q :=
  match rev s with
  | [] => Raise "IndexError"
  | x :: _ => Return x
  end.

Definition qmax (a b : Q) : Q := if Qle_bool a b then b else a.
Definition qmin (a b : Q) : Q := if Qle_bool a b then a else b.

Definition series_max (s : list Q) : Q := fold_right qmax (hd 0 s) s.
Definition series_min (s : list Q) : Q := fold_right qmin (hd 0 s) s.

Definition series_mean (s : list Q) : Q :=
  fold_right Qplus 0 s / inject_Z (Z.of_nat (List.length s)).

(** [int(x)]: truncation towards zero. *)
Definition py_int (x : Q) : Z := Z.quot (Qnum x) (Zpos (Qden x)).

(** [info.get(key, 'N/A')] *)
Definition info_get (info : Info) (key : string) : InfoValue :=
  match Py.dict_get info key with
  | Some v => v
  | None => Str "N/A"
  end.

(** A cell of the report that is either text or a number (shown with two
    decimals in the source; the rendering is not modelled). *)
Inductive Shown :=
| Text (s : string)
| Number (q : Q).

(** [pe_ratio if isinstance(pe_ratio, str) else f"{pe_ratio:.2f}"] *)
Definition show_pe (v : InfoValue) : Result Shown :=
  match v with
  | Str s => Return (Text s)
  | Num q => Return (Number q)
  | NoneValue => Raise "TypeError"
  end.

(** [div_yield if isinstance(div_yield, str) else f"{div_yield*100:.2f}%"] *)
Definition show_div (v : InfoValue) : Result Shown :=
  match v with
  | Str s => Return (Text s)
  | Num q => Return (Number (q * 100))
  | NoneValue => Raise "TypeError"
  end.

(** [top_energy_stocks.loc[ticker, 'name']]: KeyError when the frame has no
    such column or no such label. *)
Definition loc_name (top : Ranking) (ticker : string) : Result Cell :=
  if existsb (String.eqb "name") (out_columns top)
  then match find (fun s => String.eqb (symbol (base s)) ticker)
                  (out_rows top) with
       | Some s => Return (name (base s))
       | None => Raise "KeyError"
       end
  else Raise "KeyError".

Record ReportRow := mkReportRow {
  Ticker : string;
  Company : Cell;
  Current_Price : Q;
  Price_1Y_Ago : Q;
  Change_1Y_pct : Q;
  High_52W : Q;
  Low_52W : Q;
  Distance_from_High_pct : Q;
  Distance_from_Low_pct : Q;
  Avg_Volume : Z;
  Latest_Volume : Z;
  PE_Ratio : Shown;
  Div_Yield_pct : Shown
}.

Record LoopState := mkLoopState {
  price_data_list : list ReportRow;
  failed_tickers : list string
}.

Definition append_row (st : LoopState) (r : ReportRow) : LoopState :=
  mkLoopState (price_data_list st ++ [r])%list (failed_tickers st).

Definition append_failed (st : LoopState) (ticker : string) : LoopState :=
  mkLoopState (price_data_list st) (failed_tickers st ++ [ticker])%list.

(** Lines 83-138, the body of the [try].  Each path changes the two lists
    once, as its last step that can fail, so a raised exception leaves them
    as they were; printing is not modelled. *)
Definition try_body `{Provider} (top : Ranking) (st : LoopState)
    (ticker : string) : Result LoopState :=
  stock_data <- download ticker ;;
  if empty stock_data
  then Return (append_failed st ticker)
  else
    let close := map Close stock_data in
    let volume := map Volume stock_data in
    current_price <- iloc_last close ;;
    let high_52w := series_max close in
    let low_52w := series_min close in
    price_1y_ago <- iloc_first close ;;
    let price_change_1y := (current_price - price_1y_ago) / price_1y_ago * 100 in
    let avg_volume := series_mean volume in
    latest_volume <- iloc_last volume ;;
    let distance_from_high := (high_52w - current_price) / high_52w * 100 in
    let distance_from_low := (current_price - low_52w) / low_52w * 100 in
    stock_info <- ticker_info ticker ;;
    let pe_ratio := info_get stock_info "trailingPE" in
    let div_yield := info_get stock_info "dividendYield" in
    company <- loc_name top ticker ;;
    pe <- show_pe pe_ratio ;;
    dy <- show_div div_yield ;;
    Return (append_row st
      (mkReportRow ticker company current_price price_1y_ago price_change_1y
         high_52w low_52w distance_from_high distance_from_low
         (py_int avg_volume) (py_int latest_volume) pe dy)).

(** One turn of the [for]: the [try] with its [except Exception] handler. *)
Definition iteration `{Provider} (top : Ranking) (st : LoopState)
    (ticker : string) : Result LoopState :=
  try_except (try_body top st ticker)
             (fun _ => Return (append_failed st ticker)).

Fixpoint for_each `{Provider} (top : Ranking) (tickers : list string)
    (st : LoopState) : Result LoopState :=
  match tickers with
  | [] => Return st
  | ticker :: rest =>
      st' <- iteration top st ticker ;;
      for_each top rest st'
  end.

Definition enrich `{Provider} (top : Ranking) : Result LoopState :=
  for_each top (index top) (mkLoopState [] []).

(** What happens to one identifier, read off the body without the lists. *)
Definition fetch_empty `{Provider} (ticker : string) : bool :=
  match download ticker with
  | Return h => empty h
  | Raise _ => false
  end.

Definition raises `{Provider} (top : Ranking) (ticker : string) : bool :=
  match try_body top (mkLoopState [] []) ticker with
  | Return _ => false
  | Raise _ => true
  end.

Definition failed `{Provider} (top : Ranking) (ticker : string) : bool :=
  fetch_empty ticker || raises top ticker.

End Enricher.

(** ** The specification's notions *)

Module Spec.

Definition count (p : Z -> bool) (vs : list Z) : nat :=
  List.length (filter p vs).

Definition count_lt (vs : list Z) (v : Z) : nat := count (fun x => (x <? v)%Z) vs.
Definition count_eq (vs : list Z) (v : Z) : nat := count (fun x => (x =? v)%Z) vs.
Definition count_le (vs : list Z) (v : Z) : nat := count (fun x => (x <=? v)%Z) vs.

Definition of_nat (n : nat) : Q := inject_Z (Z.of_nat n).

(** The fraction of the population whose value is at most [v]. *)
Definition fraction_le (vs : list Z) (v : Z) : Q :=
  of_nat (count_le vs v) / of_nat (List.length vs).

(** Average rank for ties: the values equal to [v] take the ranks
    [count_lt + 1 .. count_le]; each of them gets the mean of those. *)
Definition average_tie_rank (vs : list Z) (v : Z) : Q :=
  (of_nat (count_lt vs v + 1) + of_nat (count_le vs v)) / 2.

(** Percentile rank with tie-averaging. *)
Definition percentile_rank (vs : list Z) (v : Z) : Q :=
  average_tie_rank vs v / of_nat (List.length vs).


(** [s] contains [token], letter case ignored. *)
Definition contains_ci (token s : string) : bool :=
  Py.contains (Py.upper token) (Py.upper s).

(** The claimed exchange component. *)
Definition exchange_component (x : string) : Z :=
  if existsb (fun token => contains_ci token x)
       PriceAnalysis.major_exchanges
  then 20 else 0.



End Spec.

(** ** Two ways to order the rows by score *)

Definition score_geb (a b : Scored) : bool :=
  Qle_bool (rank_score b) (rank_score a).

(** A stable sort, as [kind='stable'] would give. *)
Definition stable_sort (l : list Scored) : list Scored :=
  Pd.sort_by score_geb l.


(** ** Sample tables *)

Module Examples.

Definition all_columns : Columns := mkColumns true true true true true.

Definition A : Row :=
  mkRow "A" (Some "Alpha Energy") (Some "USD") (Some "NYSE")
        (Some "Mega Cap") (Some "United States").

Definition B : Row :=
  mkRow "B" (Some "Beta Oil") (Some "JPY") (Some "TSE")
        (Some "Micro Cap") (Some "Japan").

(** Same attributes as [A]: the two tie. *)
Definition C : Row :=
  mkRow "C" (Some "Gamma Gas") (Some "USD") (Some "NYSE")
        (Some "Mega Cap") (Some "United States").

Definition E : Row :=
  mkRow "E" (Some "Epsilon Power") (Some "EUR") (Some "Euronext")
        (Some "Mid Cap") (Some "France").

Definition universe : DataFrame := mkDataFrame all_columns [A; B].
Definition tied : DataFrame := mkDataFrame all_columns [A; C].
Definition euro : DataFrame := mkDataFrame all_columns [E].

End Examples.

(** ** A sample run of the loop *)

Module EnrichExamples.

Import Yf Enricher.

(** Closes with minimum 50, maximum 100 and latest 90. *)
Definition history_A : History :=
  [mkBar 50 1000; mkBar 100 3000; mkBar 90 2000].

(** [A] has prices; the fetch for [X] comes back empty; the one for any
    other ticker raises. *)
Definition provider : Provider := {|
  download := fun t =>
    if String.eqb t "A" then Return history_A
    else if String.eqb t "X" then Return []
    else Raise "ConnectionError";
  ticker_info := fun _ => Return [("trailingPE", Num (25 # 2))]
|}.

Definition X : Row :=
  mkRow "X" (Some "Xi Drilling") (Some "USD") (Some "NYQ")
        (Some "Small Cap") (Some "United States").

Definition ranked : Ranking :=
  mkRanking PriceAnalysis.select_cols
    [mkScored Examples.A 100; mkScored X 80; mkScored Examples.C 60].

End EnrichExamples.

(** ** The price-analysis script as a whole, and what a report row holds *)

Module Script.

(** Line 67: [top_energy_stocks = get_top_energy_stocks(df, top_n=15)]. *)
Definition top_energy_stocks `{Pd.SortValues} (df : DataFrame) : Ranking :=
  PriceAnalysis.get_top_energy_stocks df 15
    PriceAnalysis.default_preferred_currencies.

(** Lines 67-143: the ranking followed by the enrichment loop over it. *)
Definition run `{Pd.SortValues} `{Yf.Provider} (df : DataFrame)
  : Result Enricher.LoopState :=
  Enricher.enrich (top_energy_stocks df).

End Script.

(** The row appended for [ticker] from the history [h] and the mapping
    [info], field by field as lines 94-136 compute it. *)
Definition row_from (top : Ranking) (ticker : string) (h : Yf.History)
    (info : Yf.Info) (row : Enricher.ReportRow) : Prop :=
  let close := map Yf.Close h in
  let volume := map Yf.Volume h in
  Enricher.Ticker row = ticker
  /\ Enricher.loc_name top ticker = Return (Enricher.Company row)
  /\ Enricher.iloc_last close = Return (Enricher.Current_Price row)
  /\ Enricher.iloc_first close = Return (Enricher.Price_1Y_Ago row)
  /\ Enricher.High_52W row = Enricher.series_max close
  /\ Enricher.Low_52W row = Enricher.series_min close
  /\ Enricher.Change_1Y_pct row
     = (Enricher.Current_Price row - Enricher.Price_1Y_Ago row)
       / Enricher.Price_1Y_Ago row * 100
  /\ Enricher.Distance_from_High_pct row
     = (Enricher.High_52W row - Enricher.Current_Price row)
       / Enricher.High_52W row * 100
  /\ Enricher.Distance_from_Low_pct row
     = (Enricher.Current_Price row - Enricher.Low_52W row)
       / Enricher.Low_52W row * 100
  /\ Enricher.Avg_Volume row = Enricher.py_int (Enricher.series_mean volume)
  /\ Enricher.show_pe (Enricher.info_get info "trailingPE")
     = Return (Enricher.PE_Ratio row)
  /\ Enricher.show_div (Enricher.info_get info "dividendYield")
     = Return (Enricher.Div_Yield_pct row).

(** A row the loop can have appended: made from a non-empty history and the
    mapping the provider returns for the row's ticker. *)
Definition reported `{Yf.Provider} (top : Ranking) (row : Enricher.ReportRow)
  : Prop :=
  exists h info,
    Yf.download (Enricher.Ticker row) = Return h
    /\ Enricher.empty h = false
    /\ Yf.ticker_info (Enricher.Ticker row) = Return info
    /\ row_from top (Enricher.Ticker row) h info row.

(** The row count a progress line of the transform script prints. *)
Definition printed_count (p : Transform.Printed) : nat :=
  match p with
  | Transform.Step1 n => n
  | Transform.Step2 n => n
  | Transform.Step3 n _ => n
  | Transform.Step5_6 n => n
  end.

(** ** Sorting by insertion *)

Section InsertionSort.

Context {A : Type} (leb : A -> A -> bool).
Hypothesis leb_total : forall a b, leb a b = true \/ leb b a = true.
Hypothesis leb_trans :
  forall a b c, leb a b = true -> leb b c = true -> leb a c = true.

Let R (a b : A) : Prop := leb a b = true.

Lemma insert_by_perm (x : A) (l : list A) :
  Permutation (x :: l) (Pd.insert_by leb x l).
Proof.
  induction l as [|y l IH]; simpl.
  - apply Permutation_refl.
  - destruct (leb x y).
    + apply Permutation_refl.
    + eapply perm_trans; [apply perm_swap|].
      now apply perm_skip.
Qed.

Lemma sort_by_perm (l : list A) : Permutation l (Pd.sort_by leb l).
Proof.
  induction l as [|x l IH]; simpl.
  - constructor.
  - eapply perm_trans; [apply perm_skip, IH|].
    apply insert_by_perm.
Qed.

Lemma insert_by_sorted (x : A) (l : list A) :
  StronglySorted R l -> StronglySorted R (Pd.insert_by leb x l).
Proof.
  induction 1 as [|y l Hs IH Hy]; simpl.
  - repeat constructor.
  - destruct (leb x y) eqn:E.
    + constructor; [now constructor|].
      constructor; [exact E|].
      eapply Forall_impl; [|exact Hy].
      intros z Hz. exact (leb_trans _ _ _ E Hz).
    + constructor; [exact IH|].
      assert (Hyx : R y x) by (destruct (leb_total x y); congruence).
      eapply Permutation_Forall; [apply insert_by_perm|].
      now constructor.
Qed.

Lemma sort_by_sorted (l : list A) : StronglySorted R (Pd.sort_by leb l).
Proof.
  induction l as [|x l IH]; simpl.
  - constructor.
  - now apply insert_by_sorted.
Qed.

End InsertionSort.

Lemma StronglySorted_weaken {A} (R S : A -> A -> Prop) (l : list A) :
  (forall a b, R a b -> S a b) -> StronglySorted R l -> StronglySorted S l.
Proof.
  intros HRS; induction 1 as [|a l Hs IH Ha]; constructor; auto.
  eapply Forall_impl; [|exact Ha]. auto.
Qed.

(** ** Two sorts that meet the [sort_values] interface *)

Lemma score_geb_total (a b : Scored) :
  score_geb a b = true \/ score_geb b a = true.
Proof.
  unfold score_geb; rewrite !Qle_bool_iff.
  destruct (Qlt_le_dec (rank_score a) (rank_score b)) as [H|H]; auto.
  right; now apply Qlt_le_weak.
Qed.

Lemma score_geb_trans (a b c : Scored) :
  score_geb a b = true -> score_geb b c = true -> score_geb a c = true.
Proof.
  unfold score_geb; rewrite !Qle_bool_iff; intros; eapply Qle_trans; eauto.
Qed.

Lemma score_geb_ge (a b : Scored) : score_geb a b = true -> Pd.score_ge a b.
Proof. unfold score_geb, Pd.score_ge; now rewrite Qle_bool_iff. Qed.


Lemma stable_sort_sorted (l : list Scored) :
  StronglySorted Pd.score_ge (stable_sort l).
Proof.
  eapply StronglySorted_weaken; [exact score_geb_ge|].
  apply sort_by_sorted; [exact score_geb_total | exact score_geb_trans].
Qed.

#[export] Instance StableSort : Pd.SortValues := {|
  Pd.sort_values_desc := stable_sort;
  Pd.sort_values_perm := sort_by_perm score_geb;
  Pd.sort_values_sorted := stable_sort_sorted
|}.



(** ** Structure of the ranker's result *)

Lemma firstn_subset {A} (k : nat) (l : list A) (x : A) :
  In x (firstn k l) -> In x l.
Proof.
  revert k; induction l as [|a l IH]; intros [|k]; simpl; try tauto.
  intros [->|H]; [now left | right; eapply IH; exact H].
Qed.

Lemma head_In {A} (n : Z) (l : list A) (x : A) : In x (Pd.head n l) -> In x l.
Proof.
  unfold Pd.head; destruct (0 <=? n)%Z; apply firstn_subset.
Qed.

Lemma head_length {A} (n : Z) (l : list A) :
  (0 <= n)%Z -> List.length (Pd.head n l) = Nat.min (Z.to_nat n) (List.length l).
Proof.
  intros Hn; unfold Pd.head.
  destruct (0 <=? n)%Z eqn:E; [apply length_firstn | lia].
Qed.

Lemma head_all {A} (n : Z) (l : list A) :
  (Z.of_nat (List.length l) <= n)%Z -> Pd.head n l = l.
Proof.
  intros Hn; unfold Pd.head.
  destruct (0 <=? n)%Z eqn:E; [apply firstn_all2; lia | lia].
Qed.



Section RankerFacts.

Context {sorter : Pd.SortValues}.
Variables (df : DataFrame) (top_n : Z) (preferred_currencies : list string).

Let survivors := PriceAnalysis.filter_rows df preferred_currencies.
Let scored :=
  map (fun r => mkScored r (PriceAnalysis.score (columns df) survivors r))
      survivors.
Let top := PriceAnalysis.get_top_energy_stocks df top_n preferred_currencies.

Lemma out_rows_head : out_rows top = Pd.head top_n (Pd.sort_values_desc scored).
Proof. reflexivity. Qed.

Lemma out_rows_scored (o : Scored) :
  In o (out_rows top) ->
  In (base o) survivors /\
  rank_score o = PriceAnalysis.score (columns df) survivors (base o).
Proof.
  rewrite out_rows_head; intros Ho.
  apply head_In in Ho.
  apply (Permutation_in _ (Permutation_sym (Pd.sort_values_perm scored))) in Ho.
  apply in_map_iff in Ho; destruct Ho as (r & <- & Hr); simpl; auto.
Qed.


Lemma out_rows_length :
  (0 <= top_n)%Z ->
  List.length (out_rows top) = Nat.min (Z.to_nat top_n) (List.length survivors).
Proof.
  intros Hn; rewrite out_rows_head, head_length by exact Hn.
  rewrite <- (Permutation_length (Pd.sort_values_perm scored)).
  unfold scored; now rewrite length_map.
Qed.

Lemma out_rows_all :
  (Z.of_nat (List.length survivors) <= top_n)%Z ->
  Permutation scored (out_rows top).
Proof.
  intros Hn; rewrite out_rows_head, head_all.
  - apply Pd.sort_values_perm.
  - rewrite <- (Permutation_length (Pd.sort_values_perm scored)).
    unfold scored; now rewrite length_map.
Qed.

(** The transform script's function returns the frame the price-analysis
    script's function returns. *)
Lemma transform_result :
  fst (Transform.get_top_energy_stocks df top_n preferred_currencies) = top.
Proof.
  unfold top, Transform.get_top_energy_stocks,
    PriceAnalysis.get_top_energy_stocks, PriceAnalysis.filter_rows,
    PriceAnalysis.score, PriceAnalysis.cap_component,
    PriceAnalysis.market_cap_score, PriceAnalysis.currency_bonus,
    PriceAnalysis.exchange_bonus.
  destruct (columns df) as [hn hc he hm hk]; simpl.
  destruct hm, hc, he; reflexivity.
Qed.

End RankerFacts.

(** ** Ranks: the sorted-order definition against counting *)
Lemma count_perm (p : Z -> bool) (l l' : list Z) :
  Permutation l l' -> Spec.count p l = Spec.count p l'.
Proof.
  unfold Spec.count.
  induction 1 as [|x l l' HP IH|x y l|l l' l'' H1 IH1 H2 IH2]; simpl.
  - reflexivity.
  - destruct (p x); simpl; lia.
  - destruct (p x), (p y); reflexivity.
  - lia.
Qed.

Lemma count_le_split (vs : list Z) (v : Z) :
  Spec.count_le vs v = (Spec.count_lt vs v + Spec.count_eq vs v)%nat.
Proof.
  unfold Spec.count_le, Spec.count_lt, Spec.count_eq, Spec.count.
  induction vs as [|x vs IH]; simpl; [reflexivity|].
  destruct (Z.leb_spec x v), (Z.ltb_spec x v), (Z.eqb_spec x v);
    simpl; lia.
Qed.

Lemma count_eq_pos (vs : list Z) (v : Z) : In v vs -> (0 < Spec.count_eq vs v)%nat.
Proof.
  unfold Spec.count_eq, Spec.count.
  induction vs as [|x vs IH]; simpl; [tauto|].
  intros [->|H].
  - rewrite Z.eqb_refl; simpl; lia.
  - destruct (x =? v)%Z; simpl; auto with arith.
Qed.

Lemma count_bound (p : Z -> bool) (vs : list Z) : (Spec.count p vs <= List.length vs)%nat.
Proof. apply filter_length_le. Qed.

Lemma sort_ascending (vs : list Z) : StronglySorted Z.le (Pd.sort_by Z.leb vs).
Proof.
  apply StronglySorted_weaken with (R := fun a b => Z.leb a b = true).
  - intros a b; apply Z.leb_le.
  - apply sort_by_sorted.
    + intros a b; rewrite !Z.leb_le; lia.
    + intros a b c; rewrite !Z.leb_le; lia.
Qed.

Lemma count_none (p : Z -> bool) (s : list Z) :
  Forall (fun y => p y = false) s -> Spec.count p s = 0%nat.
Proof.
  unfold Spec.count; induction 1 as [|y s Hy Hs IH]; simpl; [reflexivity|].
  now rewrite Hy.
Qed.

Lemma positions_sorted (v : Z) (s : list Z) :
  StronglySorted Z.le s ->
  forall i, Pd.positions_of v i s = seq (i + Spec.count_lt s v) (Spec.count_eq s v).
Proof.
  induction 1 as [|x s Hs IH Hx]; intros i; simpl; [reflexivity|].
  unfold Spec.count_lt, Spec.count_eq, Spec.count in *; simpl.
  destruct (Z.eqb_spec x v) as [->|Hne]; simpl.
  - rewrite Z.ltb_irrefl, IH.
    fold (Spec.count (fun y => (y <? v)%Z) s).
    rewrite (count_none (fun y => (y <? v)%Z) s).
    + now rewrite !Nat.add_0_r.
    + eapply Forall_impl; [|exact Hx]; intros y Hy; simpl in Hy.
      apply Z.ltb_ge; exact Hy.
  - destruct (Z.ltb_spec x v) as [Hlt|Hge]; simpl.
    + rewrite IH. f_equal. lia.
    + rewrite IH.
      fold (Spec.count (fun y => (y =? v)%Z) s).
      rewrite (count_none (fun y => (y =? v)%Z) s); [reflexivity|].
      eapply Forall_impl; [|exact Hx]; intros y Hy; simpl in Hy.
      apply Z.eqb_neq; lia.
Qed.

Lemma list_sum_seq (a k : nat) :
  (2 * list_sum (seq a k) + k = k * (2 * a + k))%nat.
Proof.
  revert a; induction k as [|k IH]; intros a; simpl seq; simpl list_sum; [lia|].
  specialize (IH (S a)). nia.
Qed.

Lemma of_nat_pos (n : nat) : (0 < n)%nat -> 0 < Spec.of_nat n.
Proof.
  intros H; unfold Spec.of_nat.
  change 0 with (inject_Z 0); rewrite <- Zlt_Qlt; lia.
Qed.

Lemma mean_seq (a k : nat) :
  (0 < k)%nat ->
  Pd.mean (seq a k) == (Spec.of_nat a + Spec.of_nat (a + k - 1)) / 2.
Proof.
  intros Hk; unfold Pd.mean; rewrite length_seq.
  pose proof (list_sum_seq a k) as Hs.
  pose proof (of_nat_pos k Hk) as Hpos.
  assert (E : inject_Z (Z.of_nat (list_sum (seq a k))) * 2
              == Spec.of_nat k * (Spec.of_nat a + Spec.of_nat (a + k - 1))).
  { unfold Spec.of_nat. change 2 with (inject_Z 2).
    rewrite <- inject_Z_plus, <- !inject_Z_mult.
    rewrite inject_Z_injective.
    replace (a + k - 1)%nat with (a + (k - 1))%nat by lia.
    destruct k as [|k']; [lia|]. simpl Nat.sub. rewrite Nat.sub_0_r. nia. }
  fold (Spec.of_nat k).
  revert E Hpos.
  generalize (inject_Z (Z.of_nat (list_sum (seq a k)))) (Spec.of_nat k)
             (Spec.of_nat a) (Spec.of_nat (a + k - 1)).
  intros s n x y E Hpos.
  field_simplify_eq; [nra | lra].
Qed.

Lemma of_nat_add (a b : nat) : Spec.of_nat (a + b) == Spec.of_nat a + Spec.of_nat b.
Proof. unfold Spec.of_nat. now rewrite Nat2Z.inj_add, inject_Z_plus. Qed.

Lemma of_nat_le (a b : nat) : (a <= b)%nat -> Spec.of_nat a <= Spec.of_nat b.
Proof. intros H; unfold Spec.of_nat; rewrite <- Zle_Qle; lia. Qed.

Lemma rank_average_spec (vs : list Z) (v : Z) :
  In v vs -> Pd.rank_average vs v == Spec.average_tie_rank vs v.
Proof.
  intros Hv; unfold Pd.rank_average, Spec.average_tie_rank.
  pose proof (sort_by_perm Z.leb vs) as HP.
  rewrite (positions_sorted v _ (sort_ascending vs)).
  unfold Spec.count_lt, Spec.count_eq.
  rewrite <- !(count_perm _ _ _ HP).
  fold (Spec.count_lt vs v); fold (Spec.count_eq vs v).
  pose proof (count_eq_pos vs v Hv) as Hpos.
  rewrite mean_seq by exact Hpos.
  rewrite count_le_split.
  replace (1 + Spec.count_lt vs v + Spec.count_eq vs v - 1)%nat
    with (Spec.count_lt vs v + Spec.count_eq vs v)%nat by lia.
  replace (1 + Spec.count_lt vs v)%nat with (Spec.count_lt vs v + 1)%nat by lia.
  reflexivity.
Qed.

Lemma rank_pct_spec (vs : list Z) (v : Z) :
  In v vs -> Pd.rank_pct vs v == Spec.percentile_rank vs v.
Proof.
  intros Hv; unfold Pd.rank_pct, Spec.percentile_rank.
  now rewrite (rank_average_spec vs v Hv).
Qed.

Lemma percentile_rank_untied (vs : list Z) (v : Z) :
  Spec.count_eq vs v = 1%nat ->
  Spec.percentile_rank vs v == Spec.fraction_le vs v.
Proof.
  intros H1; unfold Spec.percentile_rank, Spec.fraction_le, Spec.average_tie_rank.
  rewrite count_le_split, H1.
  apply Qmult_comp; [|reflexivity]. 
  field.
Qed.

Lemma percentile_rank_bounds (vs : list Z) (v : Z) :
  In v vs -> 0 < Spec.percentile_rank vs v /\ Spec.percentile_rank vs v <= 1.
Proof.
  intros Hv; unfold Spec.percentile_rank, Spec.average_tie_rank.
  pose proof (count_eq_pos vs v Hv) as Hpos.
  pose proof (count_le_split vs v) as Hsplit.
  pose proof (count_bound (fun x => (x <=? v)%Z) vs) as Hle.
  fold (Spec.count_le vs v) in Hle.
  assert (Hn : (0 < List.length vs)%nat) by lia.
  pose proof (of_nat_pos _ Hn) as Hnq.
  pose proof (of_nat_le (Spec.count_lt vs v + 1) (List.length vs) ltac:(lia)) as H1.
  pose proof (of_nat_le (Spec.count_le vs v) (List.length vs) Hle) as H2.
  pose proof (of_nat_pos (Spec.count_lt vs v + 1) ltac:(lia)) as H3.
  pose proof (of_nat_le 0 (Spec.count_le vs v) ltac:(lia)) as H4.
  change (Spec.of_nat 0) with 0 in H4.
  revert Hnq H1 H2 H3 H4.
  generalize (Spec.of_nat (Spec.count_lt vs v + 1)) (Spec.of_nat (Spec.count_le vs v))
             (Spec.of_nat (List.length vs)).
  intros a b n Hnq H1 H2 H3 H4.
  setoid_replace ((a + b) / 2) with ((a + b) * (1 # 2)) by field.
  split.
  - apply Qlt_shift_div_l; [exact Hnq|]. lra.
  - apply Qle_shift_div_r; [exact Hnq|]. lra.
Qed.

(** The specification's worked example: [B] is filtered out by currency and
    [A] scores 100. *)
Example spec_example_ranking :
  PriceAnalysis.get_top_energy_stocks Examples.universe 1
    PriceAnalysis.default_preferred_currencies
  = mkRanking PriceAnalysis.select_cols [mkScored Examples.A 100].
Proof. reflexivity. Qed.

(** ** The ranker's order (C1) *)




(** ** Size of the result (C8) *)

Lemma filter_rows_nil (df : DataFrame) (preferred_currencies : list string) :
  records df = [] -> PriceAnalysis.filter_rows df preferred_currencies = [].
Proof.
  intros E; unfold PriceAnalysis.filter_rows; rewrite E.
  destruct (has_market_cap (columns df)), (has_currency (columns df));
    reflexivity.
Qed.

(** C8: for a positive [top_n] the result has [min top_n survivors] rows, so
    at most that many; an empty table gives an empty result; and a [top_n]
    of at least the number of survivors returns every survivor. *)
Theorem ranking_length {sorter : Pd.SortValues} (df : DataFrame) (top_n : Z)
    (preferred_currencies : list string) :
  (0 < top_n)%Z ->
  let survivors := PriceAnalysis.filter_rows df preferred_currencies in
  let out :=
    out_rows (PriceAnalysis.get_top_energy_stocks df top_n
                preferred_currencies) in
  (List.length out <= Nat.min (Z.to_nat top_n) (List.length survivors))%nat
  /\ List.length out = Nat.min (Z.to_nat top_n) (List.length survivors)
  /\ (records df = [] -> out = [])
  /\ ((Z.of_nat (List.length survivors) <= top_n)%Z ->
      Permutation survivors (map base out)).
Proof.
  intros Hn survivors out.
  assert (Hlen : List.length out
                 = Nat.min (Z.to_nat top_n) (List.length survivors))
    by (apply out_rows_length; lia).
  repeat split.
  - rewrite Hlen; apply Nat.le_refl.
  - exact Hlen.
  - intros E.
    apply length_zero_iff_nil; rewrite Hlen.
    unfold survivors; rewrite (filter_rows_nil _ _ E); simpl; lia.
  - intros Hall.
    pose proof (out_rows_all df top_n preferred_currencies Hall) as HP.
    apply (Permutation_map base) in HP.
    rewrite map_map in HP; simpl in HP; rewrite map_id in HP.
    exact HP.
Qed.

(** C8 on the sample universe with [top_n = 3]: one survivor, one row. *)
Lemma ranking_length_witness :
  let survivors :=
    PriceAnalysis.filter_rows Examples.universe
      PriceAnalysis.default_preferred_currencies in
  let out :=
    out_rows (PriceAnalysis.get_top_energy_stocks Examples.universe 3
                PriceAnalysis.default_preferred_currencies) in
  (List.length out <= Nat.min (Z.to_nat 3) (List.length survivors))%nat
  /\ List.length out = Nat.min (Z.to_nat 3) (List.length survivors)
  /\ (records Examples.universe = [] -> out = [])
  /\ ((Z.of_nat (List.length survivors) <= 3)%Z ->
      Permutation survivors (map base out)).
Proof.
  apply (@ranking_length StableSort Examples.universe 3
           PriceAnalysis.default_preferred_currencies).
  reflexivity.
Defined.

(** ** The two scripts rank alike (C9) *)

(** C9: for every input table, [top_n] and [preferred_currencies], the
    function of the transform script returns the frame the function of the
    price-analysis script returns; beside it, it only prints its progress
    lines (row counts after each step). *)
Theorem rankers_agree {sorter : Pd.SortValues} (df : DataFrame) (top_n : Z)
    (preferred_currencies : list string) :
  fst (Transform.get_top_energy_stocks df top_n preferred_currencies)
  = PriceAnalysis.get_top_energy_stocks df top_n preferred_currencies.
Proof. apply transform_result. Qed.

(** ** Filtering comes before scoring (C6) *)

Lemma filter_all {A} (f : A -> bool) (l : list A) :
  (forall x, In x l -> f x = true) -> filter f l = l.
Proof.
  induction l as [|a l IH]; simpl; intros H; [reflexivity|].
  rewrite (H a) by now left.
  f_equal; apply IH; intros x Hx; apply H; now right.
Qed.

Lemma filter_rows_idempotent (df : DataFrame) (pc : list string) :
  PriceAnalysis.filter_rows
    (mkDataFrame (columns df) (PriceAnalysis.filter_rows df pc)) pc
  = PriceAnalysis.filter_rows df pc.
Proof.
  unfold PriceAnalysis.filter_rows; simpl.
  destruct (has_market_cap (columns df)), (has_currency (columns df));
    try reflexivity.
  - rewrite (filter_all (fun r => Pd.notna (market_cap r))).
    + apply filter_all; intros x Hx; now apply filter_In in Hx.
    + intros x Hx; apply filter_In in Hx; destruct Hx as [Hx _].
      now apply filter_In in Hx.
  - apply filter_all; intros x Hx; now apply filter_In in Hx.
  - apply filter_all; intros x Hx; now apply filter_In in Hx.
Qed.

(** C6: when the table has the market-cap and currency columns, a record
    with no market-cap tier or with a currency outside
    [preferred_currencies] is in no row of the result (either script), and
    it is dropped before scoring: the result is the one computed from the
    table without the dropped records. *)
Theorem excluded_before_scoring {sorter : Pd.SortValues} (df : DataFrame)
    (top_n : Z) (preferred_currencies : list string) :
  has_market_cap (columns df) = true ->
  has_currency (columns df) = true ->
  let top :=
    PriceAnalysis.get_top_energy_stocks df top_n preferred_currencies in
  (forall r, market_cap r = None
             \/ Pd.isin preferred_currencies (currency r) = false ->
             ~ In r (map base (out_rows top)))
  /\ fst (Transform.get_top_energy_stocks df top_n preferred_currencies) = top
  /\ PriceAnalysis.get_top_energy_stocks
       (mkDataFrame (columns df)
          (PriceAnalysis.filter_rows df preferred_currencies))
       top_n preferred_currencies
     = top.
Proof.
  intros Hm Hc top; repeat split.
  - intros r Hbad Hin.
    apply in_map_iff in Hin; destruct Hin as (o & <- & Ho).
    apply out_rows_scored in Ho; destruct Ho as [Ho _].
    unfold PriceAnalysis.filter_rows in Ho; rewrite Hm, Hc in Ho.
    apply filter_In in Ho; destruct Ho as [Ho Hcur].
    apply filter_In in Ho; destruct Ho as [_ Hcap].
    destruct Hbad as [Hbad|Hbad].
    + rewrite Hbad in Hcap; discriminate.
    + congruence.
  - apply transform_result.
  - unfold top, PriceAnalysis.get_top_energy_stocks; simpl columns.
    now rewrite filter_rows_idempotent.
Qed.

(** C6 on the sample universe, which has both columns. *)
Lemma excluded_before_scoring_witness :
  let top :=
    PriceAnalysis.get_top_energy_stocks Examples.universe 15
      PriceAnalysis.default_preferred_currencies in
  (forall r, market_cap r = None
             \/ Pd.isin PriceAnalysis.default_preferred_currencies (currency r)
                = false ->
             ~ In r (map base (out_rows top)))
  /\ fst (Transform.get_top_energy_stocks Examples.universe 15
            PriceAnalysis.default_preferred_currencies) = top
  /\ PriceAnalysis.get_top_energy_stocks
       (mkDataFrame (columns Examples.universe)
          (PriceAnalysis.filter_rows Examples.universe
             PriceAnalysis.default_preferred_currencies))
       15 PriceAnalysis.default_preferred_currencies
     = top.
Proof.
  apply (@excluded_before_scoring StableSort Examples.universe 15
           PriceAnalysis.default_preferred_currencies);
    reflexivity.
Defined.

(** ** The three components of the score (C3, C4, C5, C7) *)

(** C3: for every surviving record, the cap component is 50 times the
    percentile rank of its market-cap ordinal among the survivors' ordinals,
    the percentile rank being the average rank of the tied group over the
    number of survivors; for an ordinal no other survivor shares this is the
    fraction of survivors whose ordinal is at most this one. *)
Theorem cap_component_percentile (df : DataFrame)
    (preferred_currencies : list string) (r : Row) :
  let survivors := PriceAnalysis.filter_rows df preferred_currencies in
  let ordinals := map PriceAnalysis.market_cap_score survivors in
  let ordinal := PriceAnalysis.market_cap_score r in
  In r survivors ->
  PriceAnalysis.cap_component survivors r
    == Spec.percentile_rank ordinals ordinal * 50
  /\ (Spec.count_eq ordinals ordinal = 1%nat ->
      PriceAnalysis.cap_component survivors r
        == Spec.fraction_le ordinals ordinal * 50).
Proof.
  intros survivors ordinals ordinal Hr.
  assert (Hin : In ordinal ordinals) by (apply in_map; exact Hr).
  unfold PriceAnalysis.cap_component.
  fold ordinals; fold ordinal.
  rewrite (rank_pct_spec ordinals ordinal Hin).
  split; [reflexivity|].
  intros Hone; now rewrite (percentile_rank_untied _ _ Hone).
Qed.

(** C3 for the survivor [E] among [A], [C], [E]: ordinals 5, 5, 3. *)
Lemma cap_component_percentile_witness :
  PriceAnalysis.cap_component [Examples.A; Examples.C; Examples.E] Examples.E
    == Spec.percentile_rank [5; 5; 3]%Z 3%Z * 50
  /\ (Spec.count_eq [5; 5; 3]%Z 3%Z = 1%nat ->
      PriceAnalysis.cap_component [Examples.A; Examples.C; Examples.E]
        Examples.E
        == Spec.fraction_le [5; 5; 3]%Z 3%Z * 50).
Proof.
  apply (cap_component_percentile
           (mkDataFrame Examples.all_columns
              [Examples.A; Examples.B; Examples.C; Examples.E])
           PriceAnalysis.default_preferred_currencies Examples.E).
  simpl; auto.
Defined.




(** Upper-casing leaves no lower-case [u] behind. *)
Lemma upper_ascii_not_u (c : ascii) : Py.upper_ascii c <> "u"%char.
Proof.
  destruct c as [[] [] [] [] [] [] [] []]; vm_compute; discriminate.
Qed.

Lemma prefix_Euronext_upper (s : string) :
  prefix "Euronext" (Py.upper s) = false.
Proof.
  destruct s as [|c1 [|c2 s]]; cbn [prefix Py.upper]; try reflexivity.
  - destruct (ascii_dec "E" (Py.upper_ascii c1)); reflexivity.
  - destruct (ascii_dec "E" (Py.upper_ascii c1)); [|reflexivity].
    destruct (ascii_dec "u" (Py.upper_ascii c2)) as [E|]; [|reflexivity].
    symmetry in E; now apply upper_ascii_not_u in E.
Qed.

Lemma contains_Euronext_upper (s : string) :
  Py.contains "Euronext" (Py.upper s) = false.
Proof.
  induction s as [|c s IH].
  - reflexivity.
  - change (Py.upper (String c s)) with (String (Py.upper_ascii c) (Py.upper s)).
    unfold Py.contains; fold Py.contains.
    change (String (Py.upper_ascii c) (Py.upper s)) with (Py.upper (String c s)).
    now rewrite prefix_Euronext_upper.
Qed.

(** C5, where the code departs from it: the mixed-case token [Euronext] is
    searched in the upper-cased exchange string, so it matches nothing; an
    exchange named Euronext gets 0 from the code and 20 from the claimed
    rule, and the record [E] ranks with 50 + 20 + 0. *)
Theorem exchange_bonus_misses_Euronext :
  (forall x : Cell,
     Py.contains "Euronext" (Py.upper (Py.str x)) = false)
  /\ PriceAnalysis.exchange_bonus (exchange Examples.E) = 0%Z
  /\ Spec.exchange_component "Euronext" = 20%Z
  /\ out_rows (PriceAnalysis.get_top_energy_stocks Examples.euro 15
                 PriceAnalysis.default_preferred_currencies)
     = [mkScored Examples.E 70].
Proof.
  split; [intros x; apply contains_Euronext_upper|].
  repeat split; reflexivity.
Qed.

Lemma currency_bonus_range (x : Cell) :
  (0 <= PriceAnalysis.currency_bonus x <= 30)%Z.
Proof.
  unfold PriceAnalysis.currency_bonus.
  destruct (Py.eq_str x "USD"); [lia|].
  destruct (Py.in_list x ["EUR"; "GBP"]); lia.
Qed.

Lemma exchange_bonus_range (x : Cell) :
  (0 <= PriceAnalysis.exchange_bonus x <= 20)%Z.
Proof.
  unfold PriceAnalysis.exchange_bonus.
  destruct (Py.any _ PriceAnalysis.major_exchanges); lia.
Qed.

Lemma cap_component_range (survivors : list Row) (r : Row) :
  In r survivors ->
  0 <= PriceAnalysis.cap_component survivors r <= 50.
Proof.
  intros Hr.
  assert (Hin : In (PriceAnalysis.market_cap_score r)
                   (map PriceAnalysis.market_cap_score survivors))
    by (apply in_map; exact Hr).
  unfold PriceAnalysis.cap_component.
  rewrite (rank_pct_spec _ _ Hin).
  destruct (percentile_rank_bounds _ _ Hin) as [Hlo Hhi].
  split; lra.
Qed.

(** C7: the score of every row of the result is the sum of the cap,
    currency and exchange components, a component counting 0 when its column
    is absent, and lies between 0 and 100. *)
Theorem score_in_range {sorter : Pd.SortValues} (df : DataFrame) (top_n : Z)
    (preferred_currencies : list string) (o : Scored) :
  let survivors := PriceAnalysis.filter_rows df preferred_currencies in
  let cap :=
    if has_market_cap (columns df)
    then PriceAnalysis.cap_component survivors (base o) else 0 in
  let cur :=
    if has_currency (columns df)
    then inject_Z (PriceAnalysis.currency_bonus (currency (base o))) else 0 in
  let exch :=
    if has_exchange (columns df)
    then inject_Z (PriceAnalysis.exchange_bonus (exchange (base o))) else 0 in
  In o (out_rows (PriceAnalysis.get_top_energy_stocks df top_n
                    preferred_currencies)) ->
  rank_score o == cap + cur + exch
  /\ 0 <= rank_score o <= 100.
Proof.
  intros survivors cap cur exch Ho.
  apply out_rows_scored in Ho; destruct Ho as [Hr Hs].
  fold survivors in Hr, Hs.
  assert (Hsum : rank_score o == cap + cur + exch).
  { rewrite Hs; unfold PriceAnalysis.score, cap, cur, exch.
    destruct (has_market_cap (columns df)), (has_currency (columns df)),
      (has_exchange (columns df)); ring. }
  split; [exact Hsum|].
  rewrite Hsum.
  pose proof (cap_component_range survivors (base o) Hr) as Hcap.
  pose proof (currency_bonus_range (currency (base o))) as Hcur.
  pose proof (exchange_bonus_range (exchange (base o))) as Hex.
  assert (Hcap' : 0 <= cap <= 50)
    by (unfold cap; destruct (has_market_cap (columns df)); lra).
  assert (Hcur' : 0 <= cur <= 30).
  { unfold cur; destruct (has_currency (columns df)); [|lra].
    change 0 with (inject_Z 0); change 30 with (inject_Z 30).
    rewrite <- !Zle_Qle; exact Hcur. }
  assert (Hex' : 0 <= exch <= 20).
  { unfold exch; destruct (has_exchange (columns df)); [|lra].
    change 0 with (inject_Z 0); change 20 with (inject_Z 20).
    rewrite <- !Zle_Qle; exact Hex. }
  lra.
Qed.

(** C7 for the one row of the sample ranking. *)
Lemma score_in_range_witness :
  let o := mkScored Examples.A 100 in
  rank_score o
  == PriceAnalysis.cap_component [Examples.A] Examples.A
     + inject_Z (PriceAnalysis.currency_bonus (Some "USD"))
     + inject_Z (PriceAnalysis.exchange_bonus (Some "NYSE"))
  /\ 0 <= rank_score o <= 100.
Proof.
  apply (@score_in_range StableSort Examples.universe 1
           PriceAnalysis.default_preferred_currencies
           (mkScored Examples.A 100)).
  left; reflexivity.
Defined.

(** ** The enrichment loop (C2, C10) *)

Section EnricherFacts.

Import Enricher.

Context {provider : Yf.Provider}.
Variable top : Ranking.

Ltac step_bind :=
  match goal with
  | |- context [bind ?m _] => destruct m; cbn [bind]
  end.

(** The body, whatever the lists hold when it starts: it records a failure,
    raises, or appends one row for the ticker. *)
Lemma try_body_outcome (st : LoopState) (ticker : string) :
  match try_body top st ticker with
  | Raise _ => fetch_empty ticker = false /\ raises top ticker = true
  | Return st' =>
      raises top ticker = false /\
      ((fetch_empty ticker = true /\ st' = append_failed st ticker) \/
       (fetch_empty ticker = false /\
        exists row, Ticker row = ticker /\ st' = append_row st row))
  end.
Proof.
  unfold raises, fetch_empty, try_body.
  destruct (Yf.download ticker) as [h|e]; cbn [bind]; [|auto].
  destruct (empty h); [auto|].
  repeat step_bind; auto.
  split; [reflexivity|]; right; split; [reflexivity|].
  eexists; split; [|reflexivity]; reflexivity.
Qed.

Lemma iteration_result (st : LoopState) (ticker : string) :
  exists st', iteration top st ticker = Return st' /\
    if failed top ticker
    then st' = append_failed st ticker
    else exists row, Ticker row = ticker /\ st' = append_row st row.
Proof.
  unfold iteration, failed.
  pose proof (try_body_outcome st ticker) as H.
  destruct (try_body top st ticker) as [st'|e]; cbn [try_except].
  - exists st'; split; [reflexivity|].
    destruct H as [Hr [[He ->]|[He Hrow]]]; rewrite He, Hr; simpl; auto.
  - exists (append_failed st ticker); split; [reflexivity|].
    destruct H as [He Hr]; rewrite He, Hr; reflexivity.
Qed.

(** The loop never raises; it adds the failed tickers to one list and one
    row per other ticker to the other, both in the order of the tickers. *)
Lemma for_each_result (tickers : list string) (st : LoopState) :
  exists rows,
    for_each top tickers st
    = Return (mkLoopState (price_data_list st ++ rows)
                (failed_tickers st ++ filter (failed top) tickers))
    /\ map Ticker rows = filter (fun t => negb (failed top t)) tickers.
Proof.
  revert st; induction tickers as [|t rest IH]; intros st.
  - exists []; simpl; rewrite !app_nil_r; destruct st; auto.
  - destruct (iteration_result st t) as (st' & Hit & Hst').
    cbn [for_each]; rewrite Hit; cbn [bind].
    destruct (IH st') as (rows & Hrest & Hrows).
    cbn [filter]; destruct (failed top t); cbn [negb].
    + subst st'; exists rows; split; [|exact Hrows].
      rewrite Hrest; unfold append_failed; cbn.
      now rewrite <- app_assoc.
    + destruct Hst' as (row & Hrow & ->).
      exists (row :: rows); split.
      * rewrite Hrest; unfold append_row; cbn.
        now rewrite <- app_assoc.
      * cbn [map]; now rewrite Hrow, Hrows.
Qed.

Lemma enrich_result :
  exists st,
    enrich top = Return st
    /\ failed_tickers st = filter (failed top) (index top)
    /\ map Ticker (price_data_list st)
       = filter (fun t => negb (failed top t)) (index top).
Proof.
  destruct (for_each_result (index top) (mkLoopState [] []))
    as (rows & Hrun & Hrows).
  eexists; split; [exact Hrun|]; cbn; auto.
Qed.

End EnricherFacts.

Lemma filter_partition_length {A} (f : A -> bool) (l : list A) :
  (List.length (filter f l) + List.length (filter (fun x => negb (f x)) l)
   = List.length l)%nat.
Proof.
  induction l as [|a l IH]; simpl; [reflexivity|].
  destruct (f a); simpl; lia.
Qed.

(** C2: the loop always runs to its end; an identifier whose fetch comes
    back empty or whose processing raises goes to the failed list and adds
    no report row; and the report rows are those of the other identifiers, in
    ranked order. *)
Theorem enrichment_skips_failures {provider : Yf.Provider} (top : Ranking) :
  exists st,
    Enricher.enrich top = Return st
    /\ (forall t, In t (index top) ->
          Enricher.fetch_empty t = true \/ Enricher.raises top t = true ->
          In t (Enricher.failed_tickers st)
          /\ ~ In t (map Enricher.Ticker (Enricher.price_data_list st)))
    /\ Enricher.failed_tickers st = filter (Enricher.failed top) (index top)
    /\ map Enricher.Ticker (Enricher.price_data_list st)
       = filter (fun t => negb (Enricher.failed top t)) (index top).
Proof.
  destruct (enrich_result top) as (st & Hrun & Hf & Hr).
  exists st; repeat split; auto.
  - rewrite Hf; apply filter_In; split; [assumption|].
    unfold Enricher.failed; apply orb_true_iff; assumption.
  - rewrite Hr; intros Hin; apply filter_In in Hin; destruct Hin as [_ Hin].
    assert (Enricher.failed top t = true)
      by (unfold Enricher.failed; apply orb_true_iff; assumption).
    destruct (Enricher.failed top t); discriminate.
Qed.

(** C10: with distinct identifiers in the ranked list, after the loop every
    one of them either has exactly one report row and is not in the failed
    list, or is once in the failed list and has no report row; the two lists
    together are as long as the ranked list. *)
Theorem enrichment_partitions_identifiers {provider : Yf.Provider}
    (top : Ranking) :
  NoDup (index top) ->
  exists st,
    Enricher.enrich top = Return st
    /\ (forall t, In t (index top) ->
          let reported := map Enricher.Ticker (Enricher.price_data_list st) in
          (count_occ string_dec reported t = 1%nat
           /\ ~ In t (Enricher.failed_tickers st))
          \/ (count_occ string_dec (Enricher.failed_tickers st) t = 1%nat
              /\ ~ In t reported))
    /\ (List.length (Enricher.price_data_list st)
        + List.length (Enricher.failed_tickers st)
        = List.length (index top))%nat.
Proof.
  intros Hnd.
  destruct (enrich_result top) as (st & Hrun & Hf & Hr).
  exists st; split; [exact Hrun|]; split.
  - intros t Ht reported; unfold reported; rewrite Hr, Hf.
    assert (Hone : forall f, In t (filter f (index top)) ->
                     count_occ string_dec (filter f (index top)) t = 1%nat).
    { intros f Hin.
      apply NoDup_count_occ'; [now apply NoDup_filter | exact Hin]. }
    destruct (Enricher.failed top t) eqn:E.
    + right; split.
      * apply Hone, filter_In; auto.
      * intros Hin; apply filter_In in Hin; rewrite E in Hin.
        destruct Hin; discriminate.
    + left; split.
      * apply Hone, filter_In; rewrite E; auto.
      * intros Hin; apply filter_In in Hin; destruct Hin; congruence.
  - rewrite <- (length_map Enricher.Ticker), Hr, Hf, Nat.add_comm.
    apply filter_partition_length.
Qed.


(** The specification's two examples on the loop: the empty fetch for [X]
    puts it in the failed list with no row while the run goes on, and closes
    with minimum 50, maximum 100 and latest 90 give the distances 10 and 80. *)
Example spec_example_enrichment :
  match @Enricher.enrich EnrichExamples.provider EnrichExamples.ranked with
  | Return st =>
      Enricher.failed_tickers st = ["X"; "C"]
      /\ map Enricher.Ticker (Enricher.price_data_list st) = ["A"]
      /\ Forall2 Qeq
           (map Enricher.Distance_from_High_pct (Enricher.price_data_list st))
           [10]
      /\ Forall2 Qeq
           (map Enricher.Distance_from_Low_pct (Enricher.price_data_list st))
           [80]
  | Raise _ => False
  end.
Proof.
  cbv; repeat split; repeat constructor.
Qed.

(** C10 on the sample run: [A] is reported, [X] and [C] fail. *)
Lemma enrichment_partitions_identifiers_witness :
  exists st,
    @Enricher.enrich EnrichExamples.provider EnrichExamples.ranked = Return st
    /\ (forall t, In t (index EnrichExamples.ranked) ->
          let reported := map Enricher.Ticker (Enricher.price_data_list st) in
          (count_occ string_dec reported t = 1%nat
           /\ ~ In t (Enricher.failed_tickers st))
          \/ (count_occ string_dec (Enricher.failed_tickers st) t = 1%nat
              /\ ~ In t reported))
    /\ (List.length (Enricher.price_data_list st)
        + List.length (Enricher.failed_tickers st)
        = List.length (index EnrichExamples.ranked))%nat.
Proof.
  apply (@enrichment_partitions_identifiers EnrichExamples.provider
           EnrichExamples.ranked).
  repeat (constructor; [simpl; intuition discriminate|]).
  constructor.
Defined.

(** ** Further facts *)

(** The six upper-case tokens are matched whatever the letter case of the
    exchange string: on them the code follows the claimed rule. *)
Lemma exchange_bonus_upper_tokens (s : string) :
  PriceAnalysis.exchange_bonus (Some s)
  = if existsb (fun token => Spec.contains_ci token s)
         ["NASDAQ"; "NYSE"; "XETRA"; "NYQ"; "XETR"; "LON"]
    then 20%Z else 0%Z.
Proof.
  unfold PriceAnalysis.exchange_bonus, Py.any, PriceAnalysis.major_exchanges,
    Spec.contains_ci.
  cbn [existsb Py.str].
  rewrite contains_Euronext_upper.
  change (Py.upper "NASDAQ") with "NASDAQ".
  change (Py.upper "NYSE") with "NYSE".
  change (Py.upper "XETRA") with "XETRA".
  change (Py.upper "NYQ") with "NYQ".
  change (Py.upper "XETR") with "XETR".
  change (Py.upper "LON") with "LON".
  reflexivity.
Qed.

Lemma NoDup_map_filter {A B} (f : A -> B) (p : A -> bool) (l : list A) :
  NoDup (map f l) -> NoDup (map f (filter p l)).
Proof.
  induction l as [|a l IH]; simpl; intros H; [constructor|].
  inversion H as [|x xs Hnot Hrest]; subst.
  destruct (p a); simpl; [constructor|]; auto.
  intros Hin; apply Hnot.
  apply in_map_iff in Hin; destruct Hin as (y & Hy & Hin).
  apply filter_In in Hin; destruct Hin as [Hin _].
  rewrite <- Hy; now apply in_map.
Qed.

Lemma NoDup_firstn {A} (k : nat) (l : list A) : NoDup l -> NoDup (firstn k l).
Proof.
  intros H; revert k; induction H as [|a l Hnot Hl IH]; intros [|k]; simpl;
    try constructor; auto.
  intros Hin; apply Hnot; eapply firstn_subset; exact Hin.
Qed.

Lemma NoDup_head {A} (n : Z) (l : list A) : NoDup l -> NoDup (Pd.head n l).
Proof.
  intros H; unfold Pd.head; destruct (0 <=? n)%Z; now apply NoDup_firstn.
Qed.

Lemma map_head {A B} (f : A -> B) (n : Z) (l : list A) :
  map f (Pd.head n l) = Pd.head n (map f l).
Proof.
  unfold Pd.head; rewrite length_map.
  destruct (0 <=? n)%Z; symmetry; apply firstn_map.
Qed.

(** Distinct identifiers in the table give distinct identifiers in the
    ranked result, which is what the loop's partition needs. *)
Lemma ranking_index_distinct {sorter : Pd.SortValues} (df : DataFrame)
    (top_n : Z) (preferred_currencies : list string) :
  NoDup (map symbol (records df)) ->
  NoDup (index (PriceAnalysis.get_top_energy_stocks df top_n
                  preferred_currencies)).
Proof.
  intros Hnd; unfold index.
  rewrite out_rows_head, map_head.
  apply NoDup_head.
  eapply Permutation_NoDup.
  - apply Permutation_map, Pd.sort_values_perm.
  - rewrite map_map; cbn [base].
    unfold PriceAnalysis.filter_rows.
    destruct (has_market_cap (columns df)), (has_currency (columns df));
      repeat apply NoDup_map_filter; exact Hnd.
Qed.

(** The two tied sample rows have distinct identifiers. *)
Lemma ranking_index_distinct_witness :
  NoDup (index (PriceAnalysis.get_top_energy_stocks Examples.tied 15
                  PriceAnalysis.default_preferred_currencies)).
Proof.
  apply (@ranking_index_distinct StableSort Examples.tied 15
           PriceAnalysis.default_preferred_currencies).
  repeat (constructor; [simpl; intuition discriminate|]).
  constructor.
Defined.

(** Whatever the identifiers, the loop accounts for every entry of the
    ranked list: the report's tickers and the failed tickers together are a
    rearrangement of it. *)
Lemma enrichment_accounts_for_all {provider : Yf.Provider} (top : Ranking) :
  exists st,
    Enricher.enrich top = Return st
    /\ Permutation (index top)
         (map Enricher.Ticker (Enricher.price_data_list st)
          ++ Enricher.failed_tickers st).
Proof.
  destruct (enrich_result top) as (st & Hrun & Hf & Hr).
  exists st; split; [exact Hrun|]; rewrite Hf, Hr.
  generalize (index top) as l.
  induction l as [|t l IH]; cbn [filter]; [constructor|].
  destruct (Enricher.failed top t); cbn [negb].
  - now apply Permutation_cons_app.
  - cbn; now apply perm_skip.
Qed.

(** ** More on the ranker's result *)

Lemma skipn_subset {A} (k : nat) (l : list A) (x : A) :
  In x (skipn k l) -> In x l.
Proof.
  revert k; induction l as [|a l IH]; intros [|k]; simpl; try tauto.
  intros H; right; eapply IH; exact H.
Qed.

Lemma sorted_firstn_skipn {A} (R : A -> A -> Prop) (l : list A) (k : nat) :
  StronglySorted R l ->
  forall a b, In a (firstn k l) -> In b (skipn k l) -> R a b.
Proof.
  intros Hs; revert k.
  induction Hs as [|x l Hs IH Hx]; intros [|k] a b Ha Hb;
    simpl in Ha, Hb; try contradiction.
  destruct Ha as [<-|Ha].
  - rewrite Forall_forall in Hx; apply Hx.
    eapply skipn_subset; exact Hb.
  - eapply IH; eassumption.
Qed.

Lemma head_firstn {A} (n : Z) (l : list A) :
  exists k, Pd.head n l = firstn k l.
Proof. unfold Pd.head; destruct (0 <=? n)%Z; eexists; reflexivity. Qed.

(** The rows returned are the best ones: every scored survivor left out
    scores no more than every row returned, whatever [top_n]. *)
Theorem ranking_keeps_best {sorter : Pd.SortValues} (df : DataFrame)
    (top_n : Z) (preferred_currencies : list string) :
  let survivors := PriceAnalysis.filter_rows df preferred_currencies in
  let scored :=
    map (fun r => mkScored r (PriceAnalysis.score (columns df) survivors r))
        survivors in
  let out :=
    out_rows (PriceAnalysis.get_top_energy_stocks df top_n
                preferred_currencies) in
  exists rest,
    Permutation scored (out ++ rest)
    /\ forall o s, In o out -> In s rest -> rank_score s <= rank_score o.
Proof.
  intros survivors scored out.
  unfold out; rewrite out_rows_head; fold survivors; fold scored.
  destruct (head_firstn top_n (Pd.sort_values_desc scored)) as [k ->].
  exists (skipn k (Pd.sort_values_desc scored)); split.
  - rewrite firstn_skipn; apply Pd.sort_values_perm.
  - intros o s Ho Hs.
    apply (sorted_firstn_skipn Pd.score_ge _ k
             (Pd.sort_values_sorted scored) o s Ho Hs).
Qed.

Lemma head_head {A} (n m : Z) (l : list A) :
  (0 <= n <= m)%Z -> Pd.head n (Pd.head m l) = Pd.head n l.
Proof.
  intros H; unfold Pd.head.
  destruct (Z.leb_spec 0 n); [|lia]; destruct (Z.leb_spec 0 m); [|lia].
  rewrite firstn_firstn; f_equal; lia.
Qed.

(** A shorter list is the beginning of a longer one: for [0 <= n <= m] the
    rows returned for [top_n = n] are the first [n] of those returned for
    [top_n = m], with the same columns. *)
Theorem ranking_prefix {sorter : Pd.SortValues} (df : DataFrame) (n m : Z)
    (preferred_currencies : list string) :
  (0 <= n <= m)%Z ->
  out_rows (PriceAnalysis.get_top_energy_stocks df n preferred_currencies)
  = Pd.head n
      (out_rows (PriceAnalysis.get_top_energy_stocks df m
                   preferred_currencies))
  /\ out_columns (PriceAnalysis.get_top_energy_stocks df n
                    preferred_currencies)
     = out_columns (PriceAnalysis.get_top_energy_stocks df m
                      preferred_currencies).
Proof.
  intros H; split; [|reflexivity].
  rewrite !out_rows_head; symmetry; now apply head_head.
Qed.

(** On the sample table with ties: the top 1 is the first of the top 2. *)
Lemma ranking_prefix_witness :
  out_rows (PriceAnalysis.get_top_energy_stocks Examples.tied 1
              PriceAnalysis.default_preferred_currencies)
  = Pd.head 1
      (out_rows (PriceAnalysis.get_top_energy_stocks Examples.tied 2
                   PriceAnalysis.default_preferred_currencies))
  /\ out_columns (PriceAnalysis.get_top_energy_stocks Examples.tied 1
                    PriceAnalysis.default_preferred_currencies)
     = out_columns (PriceAnalysis.get_top_energy_stocks Examples.tied 2
                      PriceAnalysis.default_preferred_currencies).
Proof.
  apply (@ranking_prefix StableSort Examples.tied 1 2
           PriceAnalysis.default_preferred_currencies).
  lia.
Defined.

(** A [top_n] of zero gives no row, and a negative one does not fail: it
    leaves out that many rows from the end of the ranking. *)
Theorem ranking_nonpositive_top_n {sorter : Pd.SortValues} (df : DataFrame)
    (preferred_currencies : list string) :
  let survivors := PriceAnalysis.filter_rows df preferred_currencies in
  out_rows (PriceAnalysis.get_top_energy_stocks df 0 preferred_currencies)
  = []
  /\ forall k : positive,
       let out :=
         out_rows (PriceAnalysis.get_top_energy_stocks df (Z.neg k)
                     preferred_currencies) in
       List.length out = (List.length survivors - Pos.to_nat k)%nat
       /\ out
          = firstn (List.length survivors - Pos.to_nat k)
              (out_rows (PriceAnalysis.get_top_energy_stocks df
                           (Z.of_nat (List.length survivors))
                           preferred_currencies)).
Proof.
  intros survivors; split; [reflexivity|].
  intros k out; unfold out; rewrite !out_rows_head; fold survivors.
  set (scored := map _ survivors).
  assert (Hlen : List.length (Pd.sort_values_desc scored)
                 = List.length survivors).
  { rewrite <- (Permutation_length (Pd.sort_values_perm scored)).
    unfold scored; now rewrite length_map. }
  rewrite (head_all (Z.of_nat (List.length survivors))) by lia.
  unfold Pd.head; cbn [Z.leb Z.compare Z.opp].
  rewrite Hlen, Z2Nat.inj_pos.
  split; [|reflexivity].
  rewrite length_firstn, Hlen; lia.
Qed.

(** ** Tiers and the cap component *)

Lemma count_mono (p q : Z -> bool) (vs : list Z) :
  (forall x, p x = true -> q x = true) ->
  (Spec.count p vs <= Spec.count q vs)%nat.
Proof.
  intros Hpq; unfold Spec.count.
  induction vs as [|x vs IH]; simpl; [lia|].
  destruct (p x) eqn:Ep.
  - rewrite (Hpq x Ep); simpl; lia.
  - destruct (q x); simpl; lia.
Qed.

Lemma percentile_rank_mono (vs : list Z) (v w : Z) :
  (v <= w)%Z -> Spec.percentile_rank vs v <= Spec.percentile_rank vs w.
Proof.
  intros Hvw; unfold Spec.percentile_rank, Spec.average_tie_rank.
  assert (H1 : (Spec.count_lt vs v <= Spec.count_lt vs w)%nat)
    by (apply count_mono; intros x; rewrite !Z.ltb_lt; lia).
  assert (H2 : (Spec.count_le vs v <= Spec.count_le vs w)%nat)
    by (apply count_mono; intros x; rewrite !Z.leb_le; lia).
  apply Qmult_le_compat_r.
  - apply Qmult_le_compat_r; [|now vm_compute].
    apply Qplus_le_compat; apply of_nat_le; lia.
  - apply Qinv_le_0_compat.
    change 0 with (Spec.of_nat 0); apply of_nat_le; lia.
Qed.

Lemma percentile_rank_strict (vs : list Z) (v w : Z) :
  In w vs -> (v < w)%Z ->
  Spec.percentile_rank vs v < Spec.percentile_rank vs w.
Proof.
  intros Hw Hvw; unfold Spec.percentile_rank, Spec.average_tie_rank.
  assert (H1 : (Spec.count_lt vs v <= Spec.count_lt vs w)%nat)
    by (apply count_mono; intros x; rewrite !Z.ltb_lt; lia).
  assert (H2 : (Spec.count_le vs v <= Spec.count_lt vs w)%nat)
    by (apply count_mono; intros x; rewrite Z.leb_le, Z.ltb_lt; lia).
  pose proof (count_eq_pos vs w Hw) as Hpos.
  pose proof (count_le_split vs w) as Hsplit.
  pose proof (count_bound (fun x => (x <=? w)%Z) vs) as Hle.
  fold (Spec.count_le vs w) in Hle.
  assert (Hn : (0 < List.length vs)%nat) by lia.
  pose proof (of_nat_pos _ Hn) as Hnq.
  pose proof (of_nat_le _ _ H1) as Q1.
  assert (Q2 : Spec.of_nat (Spec.count_le vs v) + 1
               <= Spec.of_nat (Spec.count_le vs w)).
  { change 1 with (Spec.of_nat 1); rewrite <- of_nat_add.
    apply of_nat_le; lia. }
  rewrite !of_nat_add in *.
  revert Hnq Q1 Q2.
  generalize (Spec.of_nat (Spec.count_lt vs v)) (Spec.of_nat (Spec.count_lt vs w))
             (Spec.of_nat (Spec.count_le vs v)) (Spec.of_nat (Spec.count_le vs w))
             (Spec.of_nat 1) (Spec.of_nat (List.length vs)).
  intros a b c d one n Hnq Q1 Q2.
  apply Qmult_lt_compat_r; [now apply Qinv_lt_0_compat|].
  setoid_replace ((a + one + c) / 2) with ((a + one + c) * (1 # 2)) by field.
  setoid_replace ((b + one + d) / 2) with ((b + one + d) * (1 # 2)) by field.
  lra.
Qed.

(** All else equal, a larger market-cap tier scores strictly higher: for two
    survivors with the same currency and exchange cells, the one with the
    larger ordinal has the larger cap component and the larger score. *)
Theorem larger_tier_scores_higher (df : DataFrame)
    (preferred_currencies : list string) (r1 r2 : Row) :
  let survivors := PriceAnalysis.filter_rows df preferred_currencies in
  has_market_cap (columns df) = true ->
  In r1 survivors -> In r2 survivors ->
  currency r1 = currency r2 -> exchange r1 = exchange r2 ->
  (PriceAnalysis.market_cap_score r1 < PriceAnalysis.market_cap_score r2)%Z ->
  PriceAnalysis.cap_component survivors r1
  < PriceAnalysis.cap_component survivors r2
  /\ PriceAnalysis.score (columns df) survivors r1
     < PriceAnalysis.score (columns df) survivors r2.
Proof.
  intros survivors Hm H1 H2 Hc He Hlt.
  assert (Hcap : PriceAnalysis.cap_component survivors r1
                 < PriceAnalysis.cap_component survivors r2).
  { unfold PriceAnalysis.cap_component.
    rewrite !rank_pct_spec by (apply in_map; assumption).
    apply Qmult_lt_compat_r; [reflexivity|].
    apply percentile_rank_strict; [apply in_map; assumption | exact Hlt]. }
  split; [exact Hcap|].
  unfold PriceAnalysis.score; rewrite Hm, Hc, He.
  destruct (has_currency (columns df)), (has_exchange (columns df)); lra.
Qed.

(** [E] (Mid Cap) against a Mega Cap record with the same currency and
    exchange. *)
Lemma larger_tier_scores_higher_witness :
  let r2 :=
    mkRow "F" (Some "Phi Fuel") (Some "EUR") (Some "Euronext")
          (Some "Mega Cap") (Some "France") in
  let survivors :=
    PriceAnalysis.filter_rows
      (mkDataFrame Examples.all_columns [Examples.E; r2])
      PriceAnalysis.default_preferred_currencies in
  PriceAnalysis.cap_component survivors Examples.E
  < PriceAnalysis.cap_component survivors r2
  /\ PriceAnalysis.score Examples.all_columns survivors Examples.E
     < PriceAnalysis.score Examples.all_columns survivors r2.
Proof.
  intros r2 survivors.
  apply (larger_tier_scores_higher
           (mkDataFrame Examples.all_columns [Examples.E; r2])
           PriceAnalysis.default_preferred_currencies Examples.E r2);
    try reflexivity; simpl; auto.
Defined.

Lemma market_cap_score_range (r : Row) :
  (0 <= PriceAnalysis.market_cap_score r <= 5)%Z.
Proof.
  unfold PriceAnalysis.market_cap_score, Pd.map_dict, PriceAnalysis.cap_scores.
  destruct (market_cap r) as [t|]; cbn [Pd.fillna Py.dict_get]; [|lia].
  repeat match goal with
         | |- context [String.eqb ?a ?b] =>
             destruct (String.eqb a b); cbn [Pd.fillna]; [lia|]
         end.
  lia.
Qed.

Lemma dict_get_absent {V} (d : list (string * V)) (k : string) :
  ~ In k (map fst d) -> Py.dict_get d k = None.
Proof.
  induction d as [|[k' v] d IH]; simpl; intros H; [reflexivity|].
  destruct (String.eqb_spec k' k) as [->|_]; [tauto|].
  apply IH; tauto.
Qed.

(** A market-cap text outside the five tiers is not a missing tier: the
    record is kept (given a preferred currency) and ranks with ordinal 0,
    below every known tier. *)
Theorem unknown_tier_kept (df : DataFrame)
    (preferred_currencies : list string) (r : Row) (tier : string) :
  let survivors := PriceAnalysis.filter_rows df preferred_currencies in
  In r (records df) ->
  market_cap r = Some tier ->
  ~ In tier (map fst PriceAnalysis.cap_scores) ->
  Pd.isin preferred_currencies (currency r) = true ->
  In r survivors
  /\ PriceAnalysis.market_cap_score r = 0%Z
  /\ forall r', In r' survivors ->
       PriceAnalysis.cap_component survivors r
       <= PriceAnalysis.cap_component survivors r'.
Proof.
  intros survivors Hr Ht Hnew Hcur.
  assert (Hin : In r survivors).
  { unfold survivors, PriceAnalysis.filter_rows.
    destruct (has_market_cap (columns df)), (has_currency (columns df));
      repeat (apply filter_In; split); auto; now rewrite Ht. }
  assert (H0 : PriceAnalysis.market_cap_score r = 0%Z).
  { unfold PriceAnalysis.market_cap_score, Pd.map_dict; rewrite Ht.
    now rewrite (dict_get_absent _ _ Hnew). }
  repeat split; auto.
  intros r' Hr'; unfold PriceAnalysis.cap_component.
  rewrite !rank_pct_spec by (apply in_map; assumption).
  apply Qmult_le_compat_r; [|now vm_compute].
  apply percentile_rank_mono; rewrite H0.
  apply market_cap_score_range.
Qed.

(** A record labelled Nano Cap beside the sample record [A]. *)
Lemma unknown_tier_kept_witness :
  let r :=
    mkRow "N" (Some "Nu Wells") (Some "USD") (Some "NYSE")
          (Some "Nano Cap") (Some "United States") in
  let survivors :=
    PriceAnalysis.filter_rows
      (mkDataFrame Examples.all_columns [Examples.A; r])
      PriceAnalysis.default_preferred_currencies in
  In r survivors
  /\ PriceAnalysis.market_cap_score r = 0%Z
  /\ forall r', In r' survivors ->
       PriceAnalysis.cap_component survivors r
       <= PriceAnalysis.cap_component survivors r'.
Proof.
  intros r survivors.
  apply (unknown_tier_kept
           (mkDataFrame Examples.all_columns [Examples.A; r])
           PriceAnalysis.default_preferred_currencies r "Nano Cap").
  - simpl; auto.
  - reflexivity.
  - simpl; intuition discriminate.
  - reflexivity.
Defined.

(** ** Absent columns, and the transform script's progress lines *)

(** A table with none of the three scoring columns is ranked without
    failure: no record is dropped, every returned row has score 0, and a
    [top_n] of at least the table's size returns all its records. *)
Theorem no_scoring_columns {sorter : Pd.SortValues} (df : DataFrame)
    (top_n : Z) (preferred_currencies : list string) :
  has_market_cap (columns df) = false ->
  has_currency (columns df) = false ->
  has_exchange (columns df) = false ->
  let out :=
    out_rows (PriceAnalysis.get_top_energy_stocks df top_n
                preferred_currencies) in
  PriceAnalysis.filter_rows df preferred_currencies = records df
  /\ (forall o, In o out -> rank_score o == 0)
  /\ ((Z.of_nat (List.length (records df)) <= top_n)%Z ->
      Permutation (records df) (map base out)).
Proof.
  intros Hm Hc He out.
  assert (Hs : PriceAnalysis.filter_rows df preferred_currencies = records df)
    by (unfold PriceAnalysis.filter_rows; now rewrite Hm, Hc).
  repeat split; [exact Hs| |].
  - intros o Ho; apply out_rows_scored in Ho; destruct Ho as [_ ->].
    unfold PriceAnalysis.score; rewrite Hm, Hc, He; reflexivity.
  - intros Hn; rewrite <- Hs in Hn |- *.
    pose proof (out_rows_all df top_n preferred_currencies Hn) as HP.
    apply (Permutation_map base) in HP.
    rewrite map_map in HP; simpl in HP; rewrite map_id in HP.
    exact HP.
Qed.

(** The sample records in a table that only has the name and country. *)
Lemma no_scoring_columns_witness :
  let df :=
    mkDataFrame (mkColumns true false false false true)
      [Examples.A; Examples.B] in
  let out :=
    out_rows (PriceAnalysis.get_top_energy_stocks df 15
                PriceAnalysis.default_preferred_currencies) in
  PriceAnalysis.filter_rows df PriceAnalysis.default_preferred_currencies
  = records df
  /\ (forall o, In o out -> rank_score o == 0)
  /\ ((Z.of_nat (List.length (records df)) <= 15)%Z ->
      Permutation (records df) (map base out)).
Proof.
  intros df out.
  apply (@no_scoring_columns StableSort df 15
           PriceAnalysis.default_preferred_currencies);
    reflexivity.
Defined.

Lemma head_length_le {A} (n : Z) (l : list A) :
  (List.length (Pd.head n l) <= List.length l)%nat.
Proof.
  unfold Pd.head; destruct (0 <=? n)%Z; rewrite length_firstn; lia.
Qed.

(** The transform script prints the table's size first and the size of the
    returned frame last, one line per filter whose column exists in between,
    and the printed counts never go up. *)
Theorem transform_progress_lines {sorter : Pd.SortValues} (df : DataFrame)
    (top_n : Z) (preferred_currencies : list string) :
  let result :=
    Transform.get_top_energy_stocks df top_n preferred_currencies in
  let printed := snd result in
  hd_error printed = Some (Transform.Step1 (List.length (records df)))
  /\ last printed (Transform.Step1 0)
     = Transform.Step5_6 (List.length (out_rows (fst result)))
  /\ List.length printed
     = (2 + (if has_market_cap (columns df) then 1 else 0)
          + (if has_currency (columns df) then 1 else 0))%nat
  /\ StronglySorted ge (map printed_count printed).
Proof.
  intros result printed.
  assert (Hout : (List.length (out_rows (fst result))
                  <= List.length
                       (PriceAnalysis.filter_rows df preferred_currencies))%nat).
  { unfold result; rewrite transform_result, out_rows_head.
    eapply Nat.le_trans; [apply head_length_le|].
    rewrite <- (Permutation_length (Pd.sort_values_perm _)).
    now rewrite length_map. }
  revert Hout; unfold printed, result, PriceAnalysis.filter_rows,
    Transform.get_top_energy_stocks.
  pose proof (filter_length_le (fun r => Pd.notna (market_cap r)) (records df))
    as F1.
  pose proof (filter_length_le
                (fun r => Pd.isin preferred_currencies (currency r))
                (records df)) as F2.
  pose proof (filter_length_le
                (fun r => Pd.isin preferred_currencies (currency r))
                (filter (fun r => Pd.notna (market_cap r)) (records df)))
    as F3.
  destruct (has_market_cap (columns df)), (has_currency (columns df));
    cbn [fst snd hd_error last app List.length map printed_count Nat.add];
    intros Hout; repeat split;
    repeat (constructor; [|repeat constructor; unfold ge; lia]);
    constructor.
Qed.

(** ** What the report rows hold *)

Section ReportRows.

Import Enricher.

Context {provider : Yf.Provider}.
Variable top : Ranking.

Ltac step_bind_eq :=
  match goal with
  | |- context [bind ?m _] =>
      let E := fresh "E" in
      destruct m eqn:E; cbn [bind]; [|discriminate]
  end.

(** A normal end of the body either took the empty-fetch branch or appended
    a row made as [row_from] says. *)
Lemma try_body_row (st st' : LoopState) (ticker : string) :
  try_body top st ticker = Return st' ->
  (fetch_empty ticker = true /\ st' = append_failed st ticker)
  \/ exists row,
       reported top row /\ Ticker row = ticker /\ st' = append_row st row.
Proof.
  unfold try_body, fetch_empty, reported.
  destruct (Yf.download ticker) as [h|e] eqn:D; cbn [bind]; [|discriminate].
  destruct (empty h) eqn:Eh.
  - intros [= <-]; left; auto.
  - repeat step_bind_eq.
    intros [= <-]; right.
    eexists; split; [|split; [|reflexivity]]; [|reflexivity].
    cbn [Ticker]; exists h; eexists; rewrite D.
    repeat split; eauto.
Qed.

Lemma iteration_reported (st st' : LoopState) (ticker : string) :
  iteration top st ticker = Return st' ->
  Forall (reported top) (price_data_list st) ->
  Forall (reported top) (price_data_list st').
Proof.
  unfold iteration; intros Hit Hall.
  destruct (try_body top st ticker) as [s|e] eqn:Hb; cbn [try_except] in Hit.
  - injection Hit as <-.
    destruct (try_body_row _ _ _ Hb) as [[_ ->]|(row & Hrow & _ & ->)];
      [exact Hall|].
    cbn; apply Forall_app; split; [exact Hall | now constructor].
  - injection Hit as <-; exact Hall.
Qed.

Lemma for_each_reported (tickers : list string) (st st' : LoopState) :
  for_each top tickers st = Return st' ->
  Forall (reported top) (price_data_list st) ->
  Forall (reported top) (price_data_list st').
Proof.
  revert st; induction tickers as [|t rest IH]; intros st; cbn [for_each].
  - now intros [= <-].
  - destruct (iteration top st t) as [s|e] eqn:Hit; cbn [bind];
      [|discriminate].
    intros Hrest Hall; apply (IH s Hrest).
    exact (iteration_reported _ _ _ Hit Hall).
Qed.

Lemma enrich_reported (st : LoopState) :
  enrich top = Return st -> Forall (reported top) (price_data_list st).
Proof.
  intros Hrun; apply (for_each_reported _ _ _ Hrun); constructor.
Qed.

End ReportRows.

Lemma qmax_ge (a b : Q) : a <= Enricher.qmax a b /\ b <= Enricher.qmax a b.
Proof.
  unfold Enricher.qmax; destruct (Qle_bool a b) eqn:E.
  - apply Qle_bool_iff in E; split; [exact E | apply Qle_refl].
  - split; [apply Qle_refl|].
    destruct (Qlt_le_dec a b) as [H|H]; [|exact H].
    apply Qlt_le_weak, Qle_bool_iff in H; congruence.
Qed.

Lemma qmin_le (a b : Q) : Enricher.qmin a b <= a /\ Enricher.qmin a b <= b.
Proof.
  unfold Enricher.qmin; destruct (Qle_bool a b) eqn:E.
  - apply Qle_bool_iff in E; split; [apply Qle_refl | exact E].
  - split; [|apply Qle_refl].
    destruct (Qlt_le_dec a b) as [H|H]; [|exact H].
    apply Qlt_le_weak, Qle_bool_iff in H; congruence.
Qed.

Lemma series_max_ge (s : list Q) (x : Q) :
  In x s -> x <= Enricher.series_max s.
Proof.
  unfold Enricher.series_max; generalize (hd 0 s) as d.
  induction s as [|a s IH]; intros d; simpl; [tauto|].
  intros [->|H].
  - apply qmax_ge.
  - eapply Qle_trans; [apply (IH d H) | apply qmax_ge].
Qed.

Lemma series_min_le (s : list Q) (x : Q) :
  In x s -> Enricher.series_min s <= x.
Proof.
  unfold Enricher.series_min; generalize (hd 0 s) as d.
  induction s as [|a s IH]; intros d; simpl; [tauto|].
  intros [->|H].
  - apply qmin_le.
  - eapply Qle_trans; [apply qmin_le | apply (IH d H)].
Qed.

Lemma series_min_pos (s : list Q) :
  s <> [] -> Forall (fun x => 0 < x) s -> 0 < Enricher.series_min s.
Proof.
  unfold Enricher.series_min; intros Hne Hall.
  assert (Hd : 0 < hd 0 s)
    by (destruct s; [congruence | now inversion Hall]).
  revert Hd; generalize (hd 0 s) as d.
  induction Hall as [|a s Ha Hs IH]; intros d Hd; simpl; [exact Hd|].
  unfold Enricher.qmin at 1.
  destruct (Qle_bool a _); [exact Ha|].
  destruct s; [exact Hd | apply IH; [discriminate | exact Hd]].
Qed.

Lemma iloc_last_In (s : list Q) (x : Q) :
  Enricher.iloc_last s = Return x -> In x s.
Proof.
  unfold Enricher.iloc_last; destruct (rev s) as [|y l] eqn:E; [discriminate|].
  intros [= <-]; apply in_rev; rewrite E; now left.
Qed.

Lemma iloc_first_In (s : list Q) (x : Q) :
  Enricher.iloc_first s = Return x -> In x s.
Proof.
  unfold Enricher.iloc_first; destruct s; [discriminate|].
  intros [= <-]; now left.
Qed.

(** The loop always ends, and in every report row the latest close and the
    first close of the window lie between the 52-week low and the 52-week
    high. *)
Theorem report_prices_within_range {provider : Yf.Provider} (top : Ranking) :
  exists st,
    Enricher.enrich top = Return st
    /\ Forall (fun row =>
                 Enricher.Low_52W row <= Enricher.Current_Price row
                 /\ Enricher.Current_Price row <= Enricher.High_52W row
                 /\ Enricher.Low_52W row <= Enricher.Price_1Y_Ago row
                 /\ Enricher.Price_1Y_Ago row <= Enricher.High_52W row)
              (Enricher.price_data_list st).
Proof.
  destruct (enrich_result top) as (st & Hrun & _).
  exists st; split; [exact Hrun|].
  eapply Forall_impl; [|exact (enrich_reported top st Hrun)].
  intros row (h & info & _ & _ & _ & Hrow).
  destruct Hrow as (_ & _ & Hc & Hp & -> & -> & _).
  apply iloc_last_In in Hc; apply iloc_first_In in Hp.
  repeat split;
    first [now apply series_min_le | now apply series_max_ge].
Qed.

Lemma pct_bounds (n d : Q) :
  0 < d ->
  (0 <= n -> 0 <= n / d * 100)
  /\ (n < d -> n / d * 100 < 100)
  /\ (- d < n -> - (100) < n / d * 100).
Proof.
  intros Hd.
  assert (E : n / d * d == n) by (field; lra).
  revert E; generalize (n / d) as q; intros q E.
  repeat split; intros H; nra.
Qed.

(** With positive closing prices throughout, every report row has a distance
    from the high between 0 and 100 percent (100 excluded), a distance from
    the low that is not negative, and a one-year change above -100 percent. *)
Theorem report_percentages_bounded {provider : Yf.Provider} (top : Ranking) :
  (forall t h, Yf.download t = Return h ->
               Forall (fun b => 0 < Yf.Close b) h) ->
  exists st,
    Enricher.enrich top = Return st
    /\ Forall (fun row =>
                 0 <= Enricher.Distance_from_High_pct row
                 /\ Enricher.Distance_from_High_pct row < 100
                 /\ 0 <= Enricher.Distance_from_Low_pct row
                 /\ - (100) < Enricher.Change_1Y_pct row)
              (Enricher.price_data_list st).
Proof.
  intros Hpos.
  destruct (enrich_result top) as (st & Hrun & _).
  exists st; split; [exact Hrun|].
  eapply Forall_impl; [|exact (enrich_reported top st Hrun)].
  intros row (h & info & Hd & Hne & _ & Hrow).
  destruct Hrow as (_ & _ & Hc & Hp & HH & HL & -> & -> & -> & _).
  assert (Hall : Forall (fun x => 0 < x) (map Yf.Close h)).
  { apply Forall_forall; intros x Hx.
    apply in_map_iff in Hx; destruct Hx as (b & <- & Hb).
    pose proof (Hpos _ _ Hd) as Hh; rewrite Forall_forall in Hh; auto. }
  assert (Hnil : map Yf.Close h <> []) by (destruct h; discriminate).
  pose proof (series_min_pos _ Hnil Hall) as Hlow.
  apply iloc_last_In in Hc; apply iloc_first_In in Hp.
  pose proof (series_min_le _ _ Hc) as L1.
  pose proof (series_max_ge _ _ Hc) as H1.
  rewrite Forall_forall in Hall.
  pose proof (Hall _ Hc) as Cpos; pose proof (Hall _ Hp) as Ppos.
  rewrite HH, HL.
  revert Hlow L1 H1 Cpos Ppos.
  generalize (Enricher.series_min (map Yf.Close h)) as low.
  generalize (Enricher.series_max (map Yf.Close h)) as high.
  generalize (Enricher.Current_Price row) as c.
  generalize (Enricher.Price_1Y_Ago row) as p.
  intros p c high low Hlow L1 H1 Cpos Ppos.
  assert (Hhigh : 0 < high) by lra.
  destruct (pct_bounds (high - c) high Hhigh) as (A1 & A2 & _).
  destruct (pct_bounds (c - low) low Hlow) as (B1 & _ & _).
  destruct (pct_bounds (c - p) p Ppos) as (_ & _ & C3).
  repeat split; [apply A1 | apply A2 | apply B1 | apply C3]; lra.
Qed.

(** The sample provider only has positive closes. *)
Lemma report_percentages_bounded_witness :
  exists st,
    @Enricher.enrich EnrichExamples.provider EnrichExamples.ranked = Return st
    /\ Forall (fun row =>
                 0 <= Enricher.Distance_from_High_pct row
                 /\ Enricher.Distance_from_High_pct row < 100
                 /\ 0 <= Enricher.Distance_from_Low_pct row
                 /\ - (100) < Enricher.Change_1Y_pct row)
              (Enricher.price_data_list st).
Proof.
  apply (@report_percentages_bounded EnrichExamples.provider
           EnrichExamples.ranked).
  intros t h; cbn.
  destruct (String.eqb t "A"); [|destruct (String.eqb t "X")];
    intros [= <-]; repeat constructor.
Defined.


(** The valuation cells of a report row follow the provider's mapping for
    its ticker: a missing key shows as N/A, a string as itself, a number as
    itself (the dividend yield times 100); and no row is reported for a
    ticker whose mapping holds [None] under either key. *)
Theorem report_valuation_cells {provider : Yf.Provider} (top : Ranking) :
  exists st,
    Enricher.enrich top = Return st
    /\ Forall (fun row =>
                 exists info,
                   Yf.ticker_info (Enricher.Ticker row) = Return info
                   /\ match Py.dict_get info "trailingPE" with
                      | None => Enricher.PE_Ratio row = Enricher.Text "N/A"
                      | Some (Yf.Str s) =>
                          Enricher.PE_Ratio row = Enricher.Text s
                      | Some (Yf.Num q) =>
                          Enricher.PE_Ratio row = Enricher.Number q
                      | Some Yf.NoneValue => False
                      end
                   /\ match Py.dict_get info "dividendYield" with
                      | None =>
                          Enricher.Div_Yield_pct row = Enricher.Text "N/A"
                      | Some (Yf.Str s) =>
                          Enricher.Div_Yield_pct row = Enricher.Text s
                      | Some (Yf.Num q) =>
                          Enricher.Div_Yield_pct row
                          = Enricher.Number (q * 100)
                      | Some Yf.NoneValue => False
                      end)
              (Enricher.price_data_list st).
Proof.
  destruct (enrich_result top) as (st & Hrun & _).
  exists st; split; [exact Hrun|].
  eapply Forall_impl; [|exact (enrich_reported top st Hrun)].
  intros row (h & info & _ & _ & Hinfo & Hrow).
  destruct Hrow as (_ & _ & _ & _ & _ & _ & _ & _ & _ & _ & Hpe & Hdiv).
  exists info; split; [exact Hinfo|].
  unfold Enricher.info_get in Hpe, Hdiv.
  split.
  - destruct (Py.dict_get info "trailingPE") as [[q|s|]|];
      cbn in Hpe; congruence.
  - destruct (Py.dict_get info "dividendYield") as [[q|s|]|];
      cbn in Hdiv; congruence.
Qed.

Lemma Forall_False_nil {A} (l : list A) : Forall (fun _ => False) l -> l = [].
Proof. destruct 1; [reflexivity | contradiction]. Qed.

Lemma in_columns_name (cols : Columns) :
  has_name cols = false ->
  existsb (String.eqb "name")
    (filter (PriceAnalysis.in_columns cols) PriceAnalysis.select_cols)
  = false.
Proof.
  destruct cols as [hn hc he hm hk]; cbn [has_name]; intros ->.
  destruct hc, he, hm, hk; reflexivity.
Qed.

(** The name column is not optional for the price script: ranked from a
    table without it, every identifier ends in the failed list and the
    report stays empty, whatever the provider returns. *)
Theorem missing_name_column_fails_all {sorter : Pd.SortValues}
    {provider : Yf.Provider} (df : DataFrame) (top_n : Z)
    (preferred_currencies : list string) :
  has_name (columns df) = false ->
  let top :=
    PriceAnalysis.get_top_energy_stocks df top_n preferred_currencies in
  exists st,
    Enricher.enrich top = Return st
    /\ Enricher.price_data_list st = []
    /\ Enricher.failed_tickers st = index top.
Proof.
  intros Hname top.
  destruct (enrich_result top) as (st & Hrun & Hf & Hr).
  exists st; split; [exact Hrun|].
  assert (Hnil : Enricher.price_data_list st = []).
  { apply Forall_False_nil.
    eapply Forall_impl; [|exact (enrich_reported top st Hrun)].
    intros row (h & info & _ & _ & _ & Hrow).
    destruct Hrow as (_ & Hloc & _).
    unfold Enricher.loc_name in Hloc.
    change (out_columns top)
      with (filter (PriceAnalysis.in_columns (columns df))
              PriceAnalysis.select_cols) in Hloc.
    rewrite (in_columns_name _ Hname) in Hloc; discriminate. }
  split; [exact Hnil|].
  rewrite Hf; apply filter_all; intros t Ht.
  destruct (Enricher.failed top t) eqn:E; [reflexivity|].
  assert (Hin : In t (map Enricher.Ticker (Enricher.price_data_list st)))
    by (rewrite Hr; apply filter_In; rewrite E; auto).
  rewrite Hnil in Hin; contradiction.
Qed.

(** The sample records in a table without the name column. *)
Lemma missing_name_column_fails_all_witness :
  let top :=
    @PriceAnalysis.get_top_energy_stocks StableSort
      (mkDataFrame (mkColumns false true true true true)
         [Examples.A; Examples.C])
      15 PriceAnalysis.default_preferred_currencies in
  exists st,
    @Enricher.enrich EnrichExamples.provider top = Return st
    /\ Enricher.price_data_list st = []
    /\ Enricher.failed_tickers st = index top.
Proof.
  apply (@missing_name_column_fails_all StableSort EnrichExamples.provider
           (mkDataFrame (mkColumns false true true true true)
              [Examples.A; Examples.C])
           15 PriceAnalysis.default_preferred_currencies).
  reflexivity.
Defined.

(** The whole price script: the loop ends normally, report rows and failed
    identifiers together number [min 15 survivors], so the report has at
    most 15 rows, and every reported or failed identifier is the symbol of
    a record that passed the two filters. *)
Theorem script_run_accounts {sorter : Pd.SortValues} {provider : Yf.Provider}
    (df : DataFrame) :
  let survivors :=
    PriceAnalysis.filter_rows df PriceAnalysis.default_preferred_currencies in
  exists st,
    Script.run df = Return st
    /\ (List.length (Enricher.price_data_list st)
        + List.length (Enricher.failed_tickers st)
        = Nat.min 15 (List.length survivors))%nat
    /\ (List.length (Enricher.price_data_list st) <= 15)%nat
    /\ Forall (fun row =>
                 exists r, In r survivors /\ symbol r = Enricher.Ticker row)
              (Enricher.price_data_list st)
    /\ Forall (fun t => exists r, In r survivors /\ symbol r = t)
              (Enricher.failed_tickers st).
Proof.
  intros survivors; unfold Script.run.
  set (top := Script.top_energy_stocks df).
  destruct (enrich_result top) as (st & Hrun & Hf & Hr).
  exists st; split; [exact Hrun|].
  assert (Hlen : (List.length (Enricher.price_data_list st)
                  + List.length (Enricher.failed_tickers st)
                  = Nat.min 15 (List.length survivors))%nat).
  { rewrite <- (length_map Enricher.Ticker), Hr, Hf, Nat.add_comm.
    rewrite filter_partition_length; unfold index; rewrite length_map.
    unfold top, Script.top_energy_stocks.
    rewrite out_rows_length by lia; reflexivity. }
  assert (Hidx : forall t, In t (index top) ->
                   exists r, In r survivors /\ symbol r = t).
  { intros t Ht; unfold index in Ht.
    apply in_map_iff in Ht; destruct Ht as (o & <- & Ho).
    apply out_rows_scored in Ho; destruct Ho as [Ho _].
    exists (base o); auto. }
  split; [exact Hlen|]; split; [lia|]; split.
  - apply Forall_forall; intros row Hrow; apply Hidx.
    assert (Hin : In (Enricher.Ticker row)
                    (map Enricher.Ticker (Enricher.price_data_list st)))
      by now apply in_map.
    rewrite Hr in Hin; now apply filter_In in Hin.
  - apply Forall_forall; intros t Ht; apply Hidx.
    rewrite Hf in Ht; now apply filter_In in Ht.
Qed.

(** Passing a currency in [preferred_currencies] lets its records through
    the filter but earns them no bonus unless the code is USD, EUR or GBP. *)
Theorem preferred_currency_without_bonus (df : DataFrame)
    (preferred_currencies : list string) (r : Row) (code : string) :
  In r (records df) ->
  market_cap r <> None ->
  currency r = Some code ->
  In code preferred_currencies ->
  ~ In code ["USD"; "EUR"; "GBP"] ->
  In r (PriceAnalysis.filter_rows df preferred_currencies)
  /\ PriceAnalysis.currency_bonus (currency r) = 0%Z.
Proof.
  intros Hr Hcap Hcur Hpref Hnot; split.
  - assert (Hisin : Pd.isin preferred_currencies (currency r) = true).
    { unfold Pd.isin, Py.in_list; apply existsb_exists.
      exists code; split; [exact Hpref|].
      rewrite Hcur; apply String.eqb_refl. }
    assert (Hna : Pd.notna (market_cap r) = true)
      by (destruct (market_cap r); [reflexivity | congruence]).
    unfold PriceAnalysis.filter_rows.
    destruct (has_market_cap (columns df)), (has_currency (columns df));
      repeat (apply filter_In; split); auto.
  - unfold PriceAnalysis.currency_bonus, Py.in_list; rewrite Hcur.
    cbn [Py.eq_str existsb].
    destruct (String.eqb_spec code "USD") as [->|_]; [simpl in Hnot; tauto|].
    destruct (String.eqb_spec code "EUR") as [->|_]; [simpl in Hnot; tauto|].
    destruct (String.eqb_spec code "GBP") as [->|_]; [simpl in Hnot; tauto|].
    reflexivity.
Qed.

(** The sample record [B] (JPY) with JPY added to the preferred list. *)
Lemma preferred_currency_without_bonus_witness :
  In Examples.B
     (PriceAnalysis.filter_rows Examples.universe ["USD"; "JPY"])
  /\ PriceAnalysis.currency_bonus (currency Examples.B) = 0%Z.
Proof.
  apply (preferred_currency_without_bonus Examples.universe ["USD"; "JPY"]
           Examples.B "JPY").
  - simpl; auto.
  - discriminate.
  - reflexivity.
  - simpl; auto.
  - simpl; intuition discriminate.
Defined.
